(** * Blue-ST / Environmental-Sensing BLE peripherals: a shallow embedding

    The development follows the two MicroPython sources of the repository:

    - [ble_sensor.py]: class [BLESensor] (Blue-ST service with a
      TEMPERATURE and a SWITCH characteristic) and the manufacturer
      advertising frame [_MANUFACTURER];
    - [main.py]: class [BLEenvironment] (SIG Environmental Sensing
      service), the MCP9808 register decoding and the periodic loop
      [demo].

    Stateful code is written in a small state-and-exception monad over the
    pair (object fields, outside world).  The outside world holds the
    GATT value storage kept by the BLE stack and the log of every
    observable call (stack calls, LEDs, console, sleeps), oldest first. *)

From Stdlib Require Import ZArith Lia List String Ascii.
From Stdlib Require Import Strings.Byte Floats.SpecFloat.
From stdpp Require Import base gmap list strings.

Local Open Scope string_scope.
Local Open Scope list_scope.
Local Open Scope Z_scope.

(* ===================================================================== *)
(** * The Python runtime pieces the sources rely on                        *)
(* ===================================================================== *)

Module Py.

(** Exceptions that the modelled code can raise. *)
Inductive exn : Type :=
| KeyError      (* set.remove of an absent element *)
| IndexError    (* bytes subscript out of range *)
| ValueError    (* tuple unpacking with the wrong arity *)
| TypeError
| StructError   (* struct.pack format/argument mismatch *)
| OSError       (* bus failure reported by the I2C driver *)
| Exception.    (* [raise Exception(...)] *)

Inductive res (A : Type) : Type :=
| Ret (a : A)
| Raise (e : exn).
Arguments Ret {A} a.
Arguments Raise {A} e.

Abbreviation bytes := (list byte).

(** Python values that reach [struct.pack] or [print]. *)
Inductive pyval : Type :=
| PyInt (z : Z)
| PyFloat (f : spec_float)
| PyStr (s : string)
| PyFormat (template : string) (f : spec_float)  (* [template.format(f)] *)
| PyExn (e : exn).

(** ** Bytes *)

Definition Z_of_byte (b : byte) : Z := Z.of_N (Byte.to_N b).

Definition byte_of_Z (z : Z) : byte :=
  match Byte.of_N (Z.to_N (Z.land z 255)) with
  | Some b => b
  | None => x00
  end.

(** [data[i]] on a bytes object, for a non-negative literal index. *)
Definition subscript (data : bytes) (i : nat) : res Z :=
  match nth_error data i with
  | Some b => Ret (Z_of_byte b)
  | None => Raise IndexError
  end.

(** ** Single-precision floats

    MicroPython on the STM32WB55 stores a [float] in IEEE-754 binary32
    (24 bits of precision, infinities at exponent 128). *)
Module F32.
Definition prec : Z := 24.
Definition emax : Z := 128.

Definition of_Z (z : Z) : spec_float := binary_normalize prec emax z 0 false.
Definition mul : spec_float -> spec_float -> spec_float := SFmul prec emax.

(** Rounding (to nearest, ties to even) of any value to binary32. *)
Definition round (f : spec_float) : spec_float :=
  match f with
  | S754_finite s m e => binary_round prec emax s m e
  | _ => f
  end.

(** Bit pattern of a binary32 value: sign, biased exponent, fraction. *)
Definition sign_bit (s : bool) : Z := if s then Z.shiftl 1 31 else 0.

Definition bits (f : spec_float) : Z :=
  match round f with
  | S754_zero s => sign_bit s
  | S754_infinity s => Z.lor (sign_bit s) 0x7F800000
  | S754_nan => 0x7FC00000
  | S754_finite s m e =>
      if Z.pos m <? Z.shiftl 1 23
      then Z.lor (sign_bit s) (Z.pos m)
      else Z.lor (sign_bit s)
             (Z.lor (Z.shiftl (e + 150) 23) (Z.pos m - Z.shiftl 1 23))
  end.
End F32.

(** ** [struct.pack]

    The format is the string the source passes: a byte-order character
    followed by items, each an optional decimal repeat count and a type
    code.  Codes used by the sources: [B] (u8), [H] (u16), [I] (u32) and
    [f] (binary32).  Integers are reduced to the item's width, as
    MicroPython does. *)

Inductive byteorder : Type := LittleEndian | BigEndian.

Fixpoint int_to_bytes_le (width : nat) (v : Z) : bytes :=
  match width with
  | O => []
  | S w => byte_of_Z (Z.land v 255) :: int_to_bytes_le w (Z.shiftr v 8)
  end.

Definition int_to_bytes (bo : byteorder) (width : nat) (v : Z) : bytes :=
  match bo with
  | LittleEndian => int_to_bytes_le width v
  | BigEndian => rev (int_to_bytes_le width v)
  end.

Inductive typecode : Type := code_B | code_H | code_I | code_f.

Definition typecode_of_ascii (c : ascii) : option typecode :=
  if Ascii.eqb c "B" then Some code_B
  else if Ascii.eqb c "H" then Some code_H
  else if Ascii.eqb c "I" then Some code_I
  else if Ascii.eqb c "f" then Some code_f
  else None.

Definition digit_of_ascii (c : ascii) : option nat :=
  let n := nat_of_ascii c in
  if (48 <=? n)%nat && (n <=? 57)%nat then Some (n - 48)%nat else None.

Definition pack_one (bo : byteorder) (code : typecode) (v : pyval) : res bytes :=
  match code, v with
  | code_B, PyInt z => Ret (int_to_bytes bo 1 z)
  | code_H, PyInt z => Ret (int_to_bytes bo 2 z)
  | code_I, PyInt z => Ret (int_to_bytes bo 4 z)
  | code_f, PyFloat f => Ret (int_to_bytes bo 4 (F32.bits f))
  | code_f, PyInt z => Ret (int_to_bytes bo 4 (F32.bits (F32.of_Z z)))
  | _, _ => Raise TypeError
  end.

(** [n] consecutive items of the same code. *)
Fixpoint pack_repeat (bo : byteorder) (code : typecode) (n : nat)
    (args : list pyval) : res (bytes * list pyval) :=
  match n with
  | O => Ret ([], args)
  | S n' =>
      match args with
      | [] => Raise StructError
      | v :: args' =>
          match pack_one bo code v with
          | Raise e => Raise e
          | Ret b =>
              match pack_repeat bo code n' args' with
              | Raise e => Raise e
              | Ret (bs, rest) => Ret (b ++ bs, rest)
              end
          end
      end
  end.

Fixpoint pack_items (bo : byteorder) (fmt : list ascii) (count : option nat)
    (args : list pyval) : res bytes :=
  match fmt with
  | [] =>
      match count, args with
      | None, [] => Ret []
      | _, _ => Raise StructError
      end
  | c :: fmt' =>
      match digit_of_ascii c with
      | Some d => pack_items bo fmt' (Some (10 * default 0 count + d)%nat) args
      | None =>
          match typecode_of_ascii c with
          | None => Raise StructError
          | Some code =>
              match pack_repeat bo code (default 1%nat count) args with
              | Raise e => Raise e
              | Ret (b, rest) =>
                  match pack_items bo fmt' None rest with
                  | Raise e => Raise e
                  | Ret bs => Ret (b ++ bs)
                  end
              end
          end
      end
  end.

(** Only the two byte-order prefixes that the sources use are modelled. *)
Definition pack (fmt : string) (args : list pyval) : res bytes :=
  match list_ascii_of_string fmt with
  | c :: items =>
      if Ascii.eqb c "<" then pack_items LittleEndian items None args
      else if Ascii.eqb c ">" then pack_items BigEndian items None args
      else Raise StructError
  | [] => Raise StructError
  end.

(** [binascii.hexlify(data).decode("ascii")] *)
Definition hex_digit (n : Z) : ascii :=
  if n <? 10 then ascii_of_nat (Z.to_nat (48 + n))
  else ascii_of_nat (Z.to_nat (87 + n)).

Fixpoint hexlify (data : bytes) : string :=
  match data with
  | [] => EmptyString
  | b :: rest =>
      String (hex_digit (Z.shiftr (Z_of_byte b) 4))
        (String (hex_digit (Z.land (Z_of_byte b) 15)) (hexlify rest))
  end.

(** ** The outside world and the monad of method bodies *)

(** Observable calls, in the order the code makes them. *)
Inductive effect : Type :=
| BleActive (on : bool)
| GattsRead (value_handle : Z)
| GattsWrite (value_handle : Z) (data : bytes)
| GattsNotify (conn_handle value_handle : Z) (sent : bytes)
| GattsIndicate (conn_handle value_handle : Z) (sent : bytes)
| GapAdvertise (interval_us : Z) (adv_data : bytes) (connectable : bool)
| LedOn (led : Z)
| LedOff (led : Z)
| ConsolePrint (args : list pyval)
| OledFill (colour : Z)
| OledText (text : pyval) (x y : Z)
| OledShow
| I2cWriteMem (address register : Z) (data : bytes)
| SleepMs (ms : Z).

(** [gatts]: the value held by the stack for each characteristic handle;
    [log]: the calls made so far, oldest first. *)
Record world : Type := World {
  gatts : gmap Z bytes;
  log : list effect
}.

Definition st (S : Type) : Type := (S * world)%type.

Definition M (S A : Type) : Type := st S -> res A * st S.

Definition ret {S A} (a : A) : M S A := fun s => (Ret a, s).

Definition bind {S A B} (m : M S A) (k : A -> M S B) : M S B :=
  fun s =>
    match m s with
    | (Ret a, s') => k a s'
    | (Raise e, s') => (Raise e, s')
    end.

Definition raise {S A} (e : exn) : M S A := fun s => (Raise e, s).

Definition lift {S A} (r : res A) : M S A := fun s => (r, s).

(** [try: body except Exception as e: handler] *)
Definition try_except {S A} (body : M S A) (handler : exn -> M S A) : M S A :=
  fun s =>
    match body s with
    | (Ret a, s') => (Ret a, s')
    | (Raise e, s') => handler e s'
    end.

Definition get_self {S} : M S S := fun s => (Ret (fst s), s).
Definition modify_self {S} (f : S -> S) : M S unit :=
  fun s => (Ret tt, (f (fst s), snd s)).

Definition emit {S} (e : effect) : M S unit :=
  fun s => (Ret tt, (fst s, World (gatts (snd s)) (log (snd s) ++ [e]))).

Declare Scope py_scope.
Delimit Scope py_scope with py.
Notation "x <- m ;; k" := (bind m (fun x => k))
  (at level 100, m at next level, right associativity) : py_scope.
Notation "m ;; k" := (bind m (fun _ => k))
  (at level 100, right associativity) : py_scope.
Local Open Scope py_scope.

(** [for x in xs: body x] *)
Fixpoint for_each {S A} (xs : list A) (body : A -> M S unit) : M S unit :=
  match xs with
  | [] => ret tt
  | x :: xs' => body x ;; for_each xs' body
  end.

(** *** The BLE stack object ([bluetooth.BLE]) *)

Definition stored (w : world) (value_handle : Z) : bytes :=
  default [] (gatts w !! value_handle).

Definition active {S} (on : bool) : M S unit := emit (BleActive on).

Definition gatts_read {S} (value_handle : Z) : M S bytes :=
  emit (GattsRead value_handle) ;;
  fun s => (Ret (stored (snd s) value_handle), s).

Definition gatts_write {S} (value_handle : Z) (data : bytes) : M S unit :=
  fun s =>
    (Ret tt,
     (fst s,
      World (<[value_handle := data]> (gatts (snd s)))
            (log (snd s) ++ [GattsWrite value_handle data]))).

(** Without a [data] argument the stack sends the current local value. *)
Definition gatts_notify {S} (conn_handle value_handle : Z) : M S unit :=
  fun s => emit (GattsNotify conn_handle value_handle
                   (stored (snd s) value_handle)) s.

Definition gatts_indicate {S} (conn_handle value_handle : Z) : M S unit :=
  fun s => emit (GattsIndicate conn_handle value_handle
                   (stored (snd s) value_handle)) s.

Definition gap_advertise {S} (interval_us : Z) (adv_data : bytes)
    (connectable : bool) : M S unit :=
  emit (GapAdvertise interval_us adv_data connectable).

Definition print {S} (args : list pyval) : M S unit := emit (ConsolePrint args).
Definition sleep_ms {S} (ms : Z) : M S unit := emit (SleepMs ms).

(** Property flags of a characteristic, as the [bluetooth] module
    defines them. *)
Definition FLAG_READ : Z := 0x0002.
Definition FLAG_WRITE : Z := 0x0008.
Definition FLAG_NOTIFY : Z := 0x0010.
Definition FLAG_INDICATE : Z := 0x0020.

(** What the stack does to its storage when a central writes [payload]
    to a characteristic, before it delivers the write event. *)
Definition stack_store {S} (value_handle : Z) (payload : bytes) (s : st S) : st S :=
  (fst s, World (<[value_handle := payload]> (gatts (snd s))) (log (snd s))).

(** Event code of a characteristic write in the stack's interface. *)
Definition IRQ_GATTS_WRITE : Z := 3.

(** *** Events delivered by the stack to the registered callback

    The [data] tuple has three components for connection events
    (handle, address type, address) and two for a write
    (connection handle, value handle). *)
Inductive irq_data : Type :=
| Tuple3 (conn_handle addr_type : Z) (addr : bytes)
| Tuple2 (conn_handle value_handle : Z).

(** [a, _, _ = data] *)
Definition unpack3 {S} (data : irq_data) : M S Z :=
  match data with
  | Tuple3 conn_handle _ _ => ret conn_handle
  | Tuple2 _ _ => raise ValueError
  end.

(** [a, b = data] *)
Definition unpack2 {S} (data : irq_data) : M S (Z * Z) :=
  match data with
  | Tuple2 conn_handle value_handle => ret (conn_handle, value_handle)
  | Tuple3 _ _ _ => raise ValueError
  end.

(** *** Driving an object from outside

    [Deliver]: the stack invokes the callback; an exception that leaves
    the callback ends that invocation only, and the object keeps the
    state it had when the exception was raised.  [CentralWrites]: a
    central writes a value, the stack stores it and delivers the write
    event.  [Publish]: the application publishes a measurement. *)
Section Replay.
Context {S P : Type}.
Variable irq : Z -> irq_data -> M S unit.
Variable publish : P -> M S unit.

Inductive op : Type :=
| Deliver (event : Z) (data : irq_data)
| CentralWrites (conn_handle value_handle : Z) (payload : bytes)
| Publish (p : P).

Definition run_op (s : st S) (o : op) : st S :=
  match o with
  | Deliver event data => snd (irq event data s)
  | CentralWrites conn_handle value_handle payload =>
      snd (irq IRQ_GATTS_WRITE (Tuple2 conn_handle value_handle)
             (stack_store value_handle payload s))
  | Publish p => snd (publish p s)
  end.

Definition replay (ops : list op) (s : st S) : st S :=
  fold_left run_op ops s.
End Replay.

(** The calls made by [m] when run in state [s]. *)
Definition effects_of {S A} (m : M S A) (s : st S) : list effect :=
  drop (length (log (snd s))) (log (snd (snd (m s)))).

End Py.

Import Py.
Local Open Scope py_scope.

(* ===================================================================== *)
(** * [ble_sensor.py]: the Blue-ST peripheral                              *)
(* ===================================================================== *)

Module BleSensor.

Definition _IRQ_CENTRAL_CONNECT : Z := 1.
Definition _IRQ_CENTRAL_DISCONNECT : Z := 2.
Definition _IRQ_GATTS_WRITE : Z := 3.

(** ** The service: a characteristic is (UUID, flags) *)

Definition _ST_APP_UUID : string := "00000000-0001-11E1-AC36-0002A5D5C51B".

Definition _TEMPERATURE_UUID : string * Z :=
  ("00040000-0001-11E1-AC36-0002A5D5C51B", Z.lor FLAG_READ FLAG_NOTIFY).

Definition _SWITCH_UUID : string * Z :=
  ("20000000-0001-11E1-AC36-0002A5D5C51B", Z.lor FLAG_WRITE FLAG_NOTIFY).

Definition _ST_APP_SERVICE : string * list (string * Z) :=
  (_ST_APP_UUID, [_TEMPERATURE_UUID; _SWITCH_UUID]).

(** ** The manufacturer advertising frame *)

Definition _PROTOCOL_VERSION : Z := 0x01.
Definition _DEVICE_ID : Z := 0x80.
Definition _DEVICE_MAC : list Z := [0x12; 0x34; 0x56; 0x78; 0x9A; 0xBC].
Definition _FEATURE_MASK : Z := 0x20040000.

(** [pack('>BBI6B', _PROTOCOL_VERSION, _DEVICE_ID, _FEATURE_MASK, *_DEVICE_MAC)] *)
Definition _MANUFACTURER : res bytes :=
  pack ">BBI6B"
    (PyInt _PROTOCOL_VERSION :: PyInt _DEVICE_ID :: PyInt _FEATURE_MASK
       :: map PyInt _DEVICE_MAC).

(** [led_bleu = pyb.LED(3)], [led_rouge = pyb.LED(1)] *)
Definition led_bleu : Z := 3.
Definition led_rouge : Z := 1.

(** ** The object *)

Record BLESensor : Type := mkBLESensor {
  _temperature_handle : Z;
  _switch_handle : Z;
  _connections : gset Z;
  _payload : bytes
}.

Definition set_connections (f : gset Z -> gset Z) (self : BLESensor) : BLESensor :=
  mkBLESensor (_temperature_handle self) (_switch_handle self)
              (f (_connections self)) (_payload self).

Definition set_payload (p : bytes) (self : BLESensor) : BLESensor :=
  mkBLESensor (_temperature_handle self) (_switch_handle self)
              (_connections self) p.

(** [self._connections.add(h)] *)
Definition connections_add (h : Z) : M BLESensor unit :=
  modify_self (set_connections (fun c => {[h]} ∪ c)).

(** [self._connections.remove(h)]: raises [KeyError] when [h] is absent. *)
Definition connections_remove (h : Z) : M BLESensor unit :=
  self <- get_self ;;
  if decide (h ∈ _connections self)
  then modify_self (set_connections (fun c => c ∖ {[h]}))
  else raise KeyError.

Definition _advertise (interval_us : Z) : M BLESensor unit :=
  self <- get_self ;;
  gap_advertise interval_us (_payload self) true ;;
  emit (LedOff led_bleu).

Definition default_interval_us : Z := 500000.

(** ** The event callback *)

Definition _irq (event : Z) (data : irq_data) : M BLESensor unit :=
  if event =? _IRQ_CENTRAL_CONNECT then
    conn_handle <- unpack3 data ;;
    connections_add conn_handle ;;
    print [PyStr "Connecte à un central"] ;;
    emit (LedOn led_bleu)
  else if event =? _IRQ_CENTRAL_DISCONNECT then
    conn_handle <- unpack3 data ;;
    connections_remove conn_handle ;;
    _advertise default_interval_us ;;
    print [PyStr "Deconnecte du central"]
  else if event =? _IRQ_GATTS_WRITE then
    hs <- unpack2 data ;;
    let '(conn_handle, value_handle) := hs in
    self <- get_self ;;
    if bool_decide (conn_handle ∈ _connections self)
       && (value_handle =? _switch_handle self)
    then
      data_received <- gatts_read (_switch_handle self) ;;
      b0 <- lift (subscript data_received 0) ;;
      ack <- lift (pack "<HB" [PyInt 1000; PyInt b0]) ;;
      gatts_write (_switch_handle self) ack ;;
      gatts_notify conn_handle (_switch_handle self) ;;
      b0' <- lift (subscript data_received 0) ;;
      if b0' =? 1 then emit (LedOn led_rouge) else emit (LedOff led_rouge)
    else ret tt
  else ret tt.

(** ** Publishing a temperature

    The [print] of line 116 is read as the first statement of the loop
    body, next to the [gatts_notify] it precedes. *)
Definition set_data_temperature (temperature : spec_float) (notify : bool)
    : M BLESensor unit :=
  self <- get_self ;;
  payload <- lift (pack "<f" [PyFloat temperature]) ;;
  gatts_write (_temperature_handle self) payload ;;
  if notify then
    for_each (elements (_connections self)) (fun conn_handle =>
      print [PyStr "Temperature mesuree :"; PyFloat temperature] ;;
      gatts_notify conn_handle (_temperature_handle self))
  else ret tt.

(** ** Construction

    [handles] is what [gatts_register_services] returns, [adv_payload]
    the advertising-frame builder of [ble_advertising] and [byte_mac]
    the address reported by [config('mac')]. *)
Definition __init__ (handles : Z * Z) (adv_payload : string -> bytes -> bytes)
    (byte_mac : bytes) (name : string) : M BLESensor unit :=
  manufacturer <- lift _MANUFACTURER ;;
  active true ;;
  modify_self (fun _ =>
    mkBLESensor (fst handles) (snd handles) ∅
                (adv_payload name manufacturer)) ;;
  _advertise default_interval_us ;;
  modify_self (set_payload (adv_payload "WB55-MPY-TARQUINY" manufacturer)) ;;
  print [PyStr "Adresse MAC : %s"; PyStr (hexlify byte_mac)].

(** The object before [__init__] has run, and the state right after
    construction in world [w]. *)
Definition blank : BLESensor := mkBLESensor 0 0 ∅ [].

Definition new (handles : Z * Z) (adv_payload : string -> bytes -> bytes)
    (byte_mac : bytes) (name : string) (w : world) : st BLESensor :=
  snd (__init__ handles adv_payload byte_mac name (blank, w)).

End BleSensor.

(* ===================================================================== *)
(** * [main.py]: the Environmental-Sensing peripheral and its loop         *)
(* ===================================================================== *)

Module Main.

Definition _IRQ_CENTRAL_CONNECT : Z := 1.
Definition _IRQ_CENTRAL_DISCONNECT : Z := 2.
Definition _IRQ_GATTS_INDICATE_DONE : Z := 20.

Definition _FLAG_READ : Z := 0x0002.
Definition _FLAG_NOTIFY : Z := 0x0010.
Definition _FLAG_INDICATE : Z := 0x0020.

Definition _ENV_SENSE_UUID : Z := 0x181A.
Definition _TEMP_CHAR : Z * Z :=
  (0x2A6E, Z.lor (Z.lor _FLAG_READ _FLAG_NOTIFY) _FLAG_INDICATE).
Definition _HUMI_CHAR : Z * Z :=
  (0x2A6F, Z.lor (Z.lor _FLAG_READ _FLAG_NOTIFY) _FLAG_INDICATE).
Definition _ENV_SENSE_SERVICE : Z * list (Z * Z) :=
  (_ENV_SENSE_UUID, [_TEMP_CHAR; _HUMI_CHAR]).
Definition _ADV_APPEARANCE_GENERIC_ENVSENSOR : Z := 5696.

(** [scan] is the list of addresses answering on the bus. *)
Definition init_mcp9808 {S} (scan : list Z) (address : Z) : M S unit :=
  if bool_decide (address ∈ scan)
  then emit (I2cWriteMem address 0x01 [x00; x00])
  else raise Exception.

(** ** MCP9808 register decoding

    [i2c_data] is what [i2c.readfrom_mem(address, 0x05, 2)] produced:
    two bytes, or the exception the bus driver raised. *)
Definition read_mcp9808_temperature {S} (i2c_data : res bytes) : M S spec_float :=
  data <- lift i2c_data ;;
  d0 <- lift (subscript data 0) ;;
  d1 <- lift (subscript data 1) ;;
  let temp := Z.lor (Z.shiftl (Z.land d0 0x1F) 8) d1 in
  d0' <- lift (subscript data 0) ;;
  let temp := if Z.land d0' 0x10 =? 0 then temp else temp - Z.shiftl 1 13 in
  ret (F32.mul (F32.of_Z temp) (S754_finite false 1 (-4))).

(** ** The object *)

Record BLEenvironment : Type := mkBLEenvironment {
  _temp_handle : Z;
  _humi_handle : Z;
  _connections : gset Z;
  _payload : bytes
}.

Definition set_connections (f : gset Z -> gset Z) (self : BLEenvironment)
    : BLEenvironment :=
  mkBLEenvironment (_temp_handle self) (_humi_handle self)
                   (f (_connections self)) (_payload self).

Definition connections_add (h : Z) : M BLEenvironment unit :=
  modify_self (set_connections (fun c => {[h]} ∪ c)).

Definition connections_remove (h : Z) : M BLEenvironment unit :=
  self <- get_self ;;
  if decide (h ∈ _connections self)
  then modify_self (set_connections (fun c => c ∖ {[h]}))
  else raise KeyError.

Definition default_interval_us : Z := 500000.

Definition _advertise (interval_us : Z) : M BLEenvironment unit :=
  self <- get_self ;;
  gap_advertise interval_us (_payload self) true.

Definition _irq (event : Z) (data : irq_data) : M BLEenvironment unit :=
  if event =? _IRQ_CENTRAL_CONNECT then
    conn_handle <- unpack3 data ;;
    connections_add conn_handle ;;
    print [PyStr "Connecte"]
  else if event =? _IRQ_CENTRAL_DISCONNECT then
    conn_handle <- unpack3 data ;;
    connections_remove conn_handle ;;
    print [PyStr "Deconnecte"] ;;
    _advertise default_interval_us
  else ret tt.

Definition set_temp (temp_deg_c : spec_float) (notify indicate : bool)
    : M BLEenvironment unit :=
  self <- get_self ;;
  payload <- lift (pack "<f" [PyFloat temp_deg_c]) ;;
  gatts_write (_temp_handle self) payload ;;
  if notify || indicate then
    for_each (elements (_connections self)) (fun conn_handle =>
      (if notify then gatts_notify conn_handle (_temp_handle self) else ret tt) ;;
      (if indicate then gatts_indicate conn_handle (_temp_handle self) else ret tt))
  else ret tt.

Definition __init__ (handles : Z * Z) (payload : bytes) (byte_mac : bytes)
    : M BLEenvironment unit :=
  active true ;;
  modify_self (fun _ => mkBLEenvironment (fst handles) (snd handles) ∅ payload) ;;
  _advertise default_interval_us ;;
  print [PyStr "Adresse MAC : {}"; PyStr (hexlify byte_mac)].

Definition blank : BLEenvironment := mkBLEenvironment 0 0 ∅ [].

Definition new (handles : Z * Z) (payload : bytes) (byte_mac : bytes)
    (w : world) : st BLEenvironment :=
  snd (__init__ handles payload byte_mac (blank, w)).

(** ** The display *)

(** [oled_ok] tells whether the bus transfer of [oled.show()] succeeds. *)
Definition display_temperature_oled {S} (oled_ok : bool) (temperature : spec_float)
    : M S unit :=
  emit (OledFill 0) ;;
  emit (OledText (PyStr "Temperature:") 0 0) ;;
  emit (OledText (PyFormat "{:.2f} C" temperature) 0 20) ;;
  if oled_ok then emit OledShow else raise OSError.

(** [SSD1306_I2C(128, 64, i2c)] talks to the display and fails with
    [OSError] when it does not answer ([oled_present] false). *)
Definition init_oled_display {S} (oled_present : bool) : M S unit :=
  (if oled_present then ret tt else raise OSError) ;;
  emit (OledFill 0) ;;
  emit (OledText (PyStr "Initialisation...") 0 0) ;;
  emit OledShow.

(** ** The periodic loop of [demo]

    What the hardware answers during one round of the loop. *)
Record round_env : Type := RoundEnv {
  i2c_data : res bytes;
  oled_ok : bool
}.

(** One round of [while True:]. *)
Definition demo_round (env : round_env) : M BLEenvironment unit :=
  temperature <-
    try_except
      (temperature <- read_mcp9808_temperature (i2c_data env) ;;
       print [PyFormat "Temperature mesuree : {:.2f} °C" temperature] ;;
       display_temperature_oled (oled_ok env) temperature ;;
       ret (Some temperature))
      (fun e =>
         print [PyStr "Erreur lors de la lecture de la temperature :"; PyExn e] ;;
         ret None) ;;
  match temperature with
  | Some t => set_temp t true false
  | None => ret tt
  end ;;
  sleep_ms 5000.

(** The loop never leaves by itself; it is unrolled over the answers of
    the hardware for as many rounds as there are answers. *)
Fixpoint demo_loop (envs : list round_env) : M BLEenvironment unit :=
  match envs with
  | [] => ret tt
  | env :: envs' => demo_round env ;; demo_loop envs'
  end.

Definition demo (handles : Z * Z) (payload byte_mac : bytes)
    (scan : list Z) (oled_present : bool) (envs : list round_env)
    : M BLEenvironment unit :=
  print [PyStr "Peripherique BLE initialise"] ;;
  __init__ handles payload byte_mac ;;
  print [PyStr "Ecran OLED initialise"] ;;
  ready <-
    try_except
      (init_mcp9808 scan 0x18 ;;
       init_oled_display oled_present ;;
       print [PyStr "I2C initialise avec succes"] ;;
       print (PyStr "Peripheriques I2C detectes :" :: map PyInt scan) ;;
       ret true)
      (fun e =>
         print [PyStr "Erreur lors de l'initialisation du MCP9808 :"; PyExn e] ;;
         ret false) ;;
  if ready : bool then demo_loop envs else ret tt.

End Main.

(* ===================================================================== *)
(** * Vocabulary used by the statements                                    *)
(* ===================================================================== *)

(** Unsigned 32-bit big-endian field: most significant byte first. *)
Definition u32_be (v : Z) : bytes :=
  [byte_of_Z (v / 2 ^ 24); byte_of_Z (v / 2 ^ 16); byte_of_Z (v / 2 ^ 8); byte_of_Z v].

(** The four bytes of a binary32 bit pattern, least significant first. *)
Definition binary32_le (v : spec_float) : bytes :=
  let w := F32.bits v in
  [byte_of_Z w; byte_of_Z (Z.shiftr w 8);
   byte_of_Z (Z.shiftr w 16); byte_of_Z (Z.shiftr w 24)].

#[global] Instance byte_eq_decision : EqDecision byte := Byte.byte_eq_dec.

(** A write event passes the guard of the callback. *)
Definition accepted (s : st BleSensor.BLESensor) (conn_handle value_handle : Z) : Prop :=
  conn_handle ∈ BleSensor._connections (fst s) /\
  value_handle = BleSensor._switch_handle (fst s).

(** Handles of the characteristics of the Blue-ST service that carry the
    write flag.  [gatts_register_services] hands the value handles back
    in the order of declaration, which is how [__init__] binds them. *)
Definition write_capable_handles (self : BleSensor.BLESensor) : list Z :=
  map snd
    (List.filter (fun ch => negb (Z.land (snd (fst ch)) FLAG_WRITE =? 0))
       (zip (snd BleSensor._ST_APP_SERVICE)
            [BleSensor._temperature_handle self; BleSensor._switch_handle self])).

(** 21.5 = 43 * 2^-1 *)
Definition temperature_21_5 : spec_float := S754_finite false 43 (-1).

Definition is_notify (e : effect) : bool :=
  match e with GattsNotify _ _ _ => true | _ => false end.

Definition is_actuator (e : effect) : bool :=
  match e with
  | LedOn led | LedOff led => led =? BleSensor.led_rouge
  | _ => false
  end.

Definition is_storage_write (e : effect) : bool :=
  match e with GattsWrite _ _ => true | _ => false end.

(** Some actuator call is made strictly before some notify. *)
Definition actuator_before_notify (es : list effect) : Prop :=
  exists i j a n,
    (i < j)%nat /\ es !! i = Some a /\ es !! j = Some n /\
    is_actuator a = true /\ is_notify n = true.

Abbreviation sensor_op := (@op (spec_float * bool)).
Abbreviation env_op := (@op (spec_float * bool * bool)).

(** Replaying operations on a [BLESensor] and on a [BLEenvironment]. *)
Definition sensor_replay : list sensor_op -> st BleSensor.BLESensor -> st BleSensor.BLESensor :=
  replay BleSensor._irq (fun p => BleSensor.set_data_temperature (fst p) (snd p)).

Definition env_replay : list env_op -> st Main.BLEenvironment -> st Main.BLEenvironment :=
  replay Main._irq (fun p => Main.set_temp (fst (fst p)) (snd (fst p)) (snd p)).

Definition CentralConnect {P} (h : Z) (addr_type : Z) (addr : bytes) : @op P :=
  Deliver 1 (Tuple3 h addr_type addr).

Definition CentralDisconnect {P} (h : Z) (addr_type : Z) (addr : bytes) : @op P :=
  Deliver 2 (Tuple3 h addr_type addr).

(** [h] has a connect in [ops] that no disconnect of [h] follows. *)
Definition unmatched_connect {P} (h : Z) (ops : list (@op P)) : Prop :=
  exists before after addr_type addr,
    ops = before ++ CentralConnect h addr_type addr :: after /\
    forall addr_type' addr', CentralDisconnect h addr_type' addr' ∉ after.

(** What an event does to the set of connected handles: a connect adds
    its handle, a disconnect takes it away, nothing else touches it. *)
Definition registry_step (event : Z) (data : irq_data) (c : gset Z) : gset Z :=
  match data with
  | Tuple3 h _ _ =>
      if event =? 1 then {[h]} ∪ c
      else if event =? 2 then c ∖ {[h]}
      else c
  | Tuple2 _ _ => c
  end.

Definition registry_after {P} (c : gset Z) (o : @op P) : gset Z :=
  match o with
  | Deliver event data => registry_step event data c
  | _ => c
  end.

Definition is_connect_of {P} (h : Z) (o : @op P) : Prop :=
  exists addr_type addr, o = CentralConnect h addr_type addr.

Definition is_disconnect_of {P} (h : Z) (o : @op P) : Prop :=
  exists addr_type addr, o = CentralDisconnect h addr_type addr.

(** No exception leaves the call. *)
Definition handled_locally {S A} (m : M S A) (s : st S) : Prop :=
  exists a, fst (m s) = Ret a.

(** The call (re)starts advertising. *)
Definition rearms_advertising {S A} (m : M S A) (s : st S) : Prop :=
  exists interval_us adv_data connectable,
    GapAdvertise interval_us adv_data connectable ∈ effects_of m s.

(** The red LED call selected by byte 0 of a switch write. *)
Definition actuator_call (b : byte) : effect :=
  if decide (b = x01) then LedOn BleSensor.led_rouge else LedOff BleSensor.led_rouge.

(** The calls of one round of fan-out in [BLESensor.set_data_temperature]
    and in [BLEenvironment.set_temp]. *)
Definition sensor_fanout (temperature : spec_float) (value_handle : Z) (sent : bytes)
    (conn_handle : Z) : list effect :=
  [ConsolePrint [PyStr "Temperature mesuree :"; PyFloat temperature];
   GattsNotify conn_handle value_handle sent].

Definition env_fanout (notify indicate : bool) (value_handle : Z) (sent : bytes)
    (conn_handle : Z) : list effect :=
  (if notify then [GattsNotify conn_handle value_handle sent] else []) ++
  (if indicate then [GattsIndicate conn_handle value_handle sent] else []).

(** A concrete [BLESensor] with handles 1 (temperature) and 2 (switch),
    the given connections and the given switch value in storage. *)
Definition sensor_state (connections : gset Z) (switch_value : bytes)
    : st BleSensor.BLESensor :=
  (BleSensor.mkBLESensor 1 2 connections [],
   World {[ 2 := switch_value ]} []).

Definition env_state (connections : gset Z) : st Main.BLEenvironment :=
  (Main.mkBLEenvironment 1 2 connections [], World ∅ []).

(* --------------------------------------------------------------------- *)
(** ** Vocabulary for the sensor decoding and the loop                     *)
(* --------------------------------------------------------------------- *)

(** The integer that [read_mcp9808_temperature] builds from the two
    register bytes, before scaling. *)
Definition mcp9808_raw (d0 d1 : byte) : Z :=
  let temp := Z.lor (Z.shiftl (Z.land (Z_of_byte d0) 0x1F) 8) (Z_of_byte d1) in
  if Z.land (Z_of_byte d0) 0x10 =? 0 then temp else temp - Z.shiftl 1 13.

(** The float it returns: that integer times 0.0625. *)
Definition mcp9808_celsius (d0 d1 : byte) : spec_float :=
  F32.mul (F32.of_Z (mcp9808_raw d0 d1)) (S754_finite false 1 (-4)).

(** The low 13 bits of the register, read as a two's-complement number. *)
Definition signed13 (d0 d1 : byte) : Z :=
  let low := (Z_of_byte d0 mod 32) * 256 + Z_of_byte d1 in
  if low <? 4096 then low else low - 8192.

(** [sixteenths_of f = Some n] when [f] is exactly [n / 16]. *)
Definition sixteenths_of (f : spec_float) : option Z :=
  match f with
  | S754_zero _ => Some 0
  | S754_finite s m e =>
      if 0 <=? e + 4 then Some (cond_Zopp s (Z.pos m * 2 ^ (e + 4)))
      else if Z.pos m mod 2 ^ (- (e + 4)) =? 0
           then Some (cond_Zopp s (Z.pos m / 2 ^ (- (e + 4))))
           else None
  | _ => None
  end.

Definition all_bytes : list byte :=
  map (fun n => byte_of_Z (Z.of_nat n)) (seq 0 256).

Definition raw_values : list Z :=
  map (fun n => Z.of_nat n - 4096) (seq 0 (Z.to_nat 8192)).

Definition spec_float_eqb (a b : spec_float) : bool :=
  match a, b with
  | S754_zero s, S754_zero s' => Bool.eqb s s'
  | S754_infinity s, S754_infinity s' => Bool.eqb s s'
  | S754_nan, S754_nan => true
  | S754_finite s m e, S754_finite s' m' e' =>
      Bool.eqb s s' && (Z.pos m =? Z.pos m') && (e =? e')
  | _, _ => false
  end.

(** Reading four little-endian bytes as a binary32 value, as the central
    that receives a notification does. *)
Definition bytes_le_to_Z (bs : bytes) : Z :=
  fold_right (fun b acc => Z_of_byte b + 256 * acc) 0 bs.

Definition binary32_decode (w : Z) : spec_float :=
  let s := Z.testbit w 31 in
  let ex := Z.land (Z.shiftr w 23) 255 in
  let frac := Z.land w (2 ^ 23 - 1) in
  if ex =? 255 then (if frac =? 0 then S754_infinity s else S754_nan)
  else if ex =? 0 then
    match frac with
    | Z.pos m => S754_finite s m (-149)
    | _ => S754_zero s
    end
  else
    match frac + 2 ^ 23 with
    | Z.pos m => S754_finite s m (ex - 150)
    | _ => S754_nan
    end.

(** What the [try] block of one round of the loop obtains from the
    sensor. *)
Definition round_reading (env : Main.round_env) : res spec_float :=
  match Main.i2c_data env with
  | Raise e => Raise e
  | Ret (d0 :: d1 :: _) => Ret (mcp9808_celsius d0 d1)
  | Ret _ => Raise IndexError
  end.

Definition is_sleep (e : effect) : bool :=
  match e with SleepMs _ => true | _ => false end.

Definition is_advertise (e : effect) : bool :=
  match e with GapAdvertise _ _ _ => true | _ => false end.

Definition is_indicate (e : effect) : bool :=
  match e with GattsIndicate _ _ _ => true | _ => false end.

(** Calls into the BLE stack, as opposed to console, LED, display, bus
    and timer calls. *)
Definition is_stack_call (e : effect) : bool :=
  match e with
  | BleActive _ | GattsRead _ | GattsWrite _ _ | GattsNotify _ _ _
  | GattsIndicate _ _ _ | GapAdvertise _ _ _ => true
  | _ => false
  end.

(** An operation that is neither a publish nor a central's write to the
    characteristic [th]. *)
Definition leaves_value {P} (th : Z) (o : @op P) : Prop :=
  match o with
  | Deliver _ _ => True
  | CentralWrites _ value_handle _ => value_handle <> th
  | Publish _ => False
  end.


(* ===================================================================== *)
(** * Facts about the runtime                                              *)
(* ===================================================================== *)

Lemma byte_of_Z_of_byte (b : byte) : byte_of_Z (Z_of_byte b) = b.
Proof. destruct b; reflexivity. Qed.

Lemma byte_of_Z_land (z : Z) : byte_of_Z (Z.land z 255) = byte_of_Z z.
Proof.
  unfold byte_of_Z. rewrite <- Z.land_assoc. reflexivity.
Qed.

Lemma Z_of_byte_inj (a b : byte) : Z_of_byte a = Z_of_byte b -> a = b.
Proof.
  intros H. rewrite <- (byte_of_Z_of_byte a), <- (byte_of_Z_of_byte b).
  now rewrite H.
Qed.

Lemma Z_of_byte_eqb_1 (b : byte) : (Z_of_byte b =? 1) = true <-> b = x01.
Proof.
  split.
  - intros H. apply Z.eqb_eq in H. now apply Z_of_byte_inj.
  - intros ->. reflexivity.
Qed.

(** The acknowledgement [pack('<HB', 1000, b)] is the little-endian 1000
    followed by [b] itself. *)
Lemma pack_ack (b : byte) :
  pack "<HB" [PyInt 1000; PyInt (Z_of_byte b)] = Ret [xe8; x03; b].
Proof.
  cbv [pack list_ascii_of_string]. cbn.
  rewrite byte_of_Z_land, byte_of_Z_of_byte. reflexivity.
Qed.

Lemma pack_float (v : spec_float) : pack "<f" [PyFloat v] = Ret (binary32_le v).
Proof.
  cbv [pack list_ascii_of_string]. cbn -[F32.bits Z.shiftr].
  rewrite !byte_of_Z_land, !Z.shiftr_shiftr by lia. reflexivity.
Qed.

Lemma pack_frame (v d m a1 a2 a3 a4 a5 a6 : Z) :
  pack ">BBI6B" (map PyInt [v; d; m; a1; a2; a3; a4; a5; a6]) =
  Ret ([byte_of_Z v] ++ [byte_of_Z d] ++ u32_be m ++ map byte_of_Z [a1; a2; a3; a4; a5; a6]).
Proof.
  lazy -[Z.shiftr Z.pow Z.div Z.land byte_of_Z].
  rewrite !byte_of_Z_land, !Z.shiftr_shiftr by lia.
  rewrite !Z.shiftr_div_pow2 by lia. reflexivity.
Qed.

(* ===================================================================== *)
(** * The advertising frame                                                *)
(* ===================================================================== *)

(** C8: the manufacturer frame is [version: u8][device id: u8]
    [feature mask: u32 big-endian][MAC: 6 bytes]; the mask is
    2^18 + 2^29, whose u32 field is 20 04 00 00. *)
Theorem manufacturer_frame_layout :
  BleSensor._MANUFACTURER =
    Ret ([byte_of_Z BleSensor._PROTOCOL_VERSION] ++ [byte_of_Z BleSensor._DEVICE_ID]
         ++ u32_be BleSensor._FEATURE_MASK ++ map byte_of_Z BleSensor._DEVICE_MAC)
  /\ length BleSensor._DEVICE_MAC = 6%nat
  /\ BleSensor._FEATURE_MASK = 2 ^ 18 + 2 ^ 29
  /\ BleSensor._FEATURE_MASK = 0x20040000
  /\ u32_be BleSensor._FEATURE_MASK = [x20; x04; x00; x00]
  /\ BleSensor._MANUFACTURER =
       Ret [x01; x80; x20; x04; x00; x00; x12; x34; x56; x78; x9a; xbc].
Proof.
  split; [apply pack_frame|].
  repeat split; reflexivity.
Qed.

Arguments pack : simpl never.

(** Unfolding of the monad's operations. *)
Ltac munfold :=
  unfold bind, ret, raise, lift, get_self, modify_self, emit, print, sleep_ms,
    gatts_read, gatts_write, gatts_notify, gatts_indicate, gap_advertise,
    active, unpack3, unpack2, try_except, stored in *.

Ltac mrun := repeat (progress (munfold; cbn in *)).

(* ===================================================================== *)
(** * The event callback of [BLESensor]                                    *)
(* ===================================================================== *)

Section SensorIrq.
Import BleSensor.

Implicit Types (self : BLESensor) (w : world) (s : st BLESensor).

Lemma irq_connect s h addr_type addr :
  _irq _IRQ_CENTRAL_CONNECT (Tuple3 h addr_type addr) s =
  (Ret tt,
   (set_connections (fun c => {[h]} ∪ c) (fst s),
    World (gatts (snd s))
          (log (snd s) ++ [ConsolePrint [PyStr "Connecte à un central"]; LedOn led_bleu]))).
Proof.
  destruct s as [self [g l]]. unfold _irq, connections_add. mrun.
  rewrite <- app_assoc. reflexivity.
Qed.

Lemma irq_disconnect_member s h addr_type addr :
  h ∈ _connections (fst s) ->
  _irq _IRQ_CENTRAL_DISCONNECT (Tuple3 h addr_type addr) s =
  (Ret tt,
   (set_connections (fun c => c ∖ {[h]}) (fst s),
    World (gatts (snd s))
          (log (snd s) ++
             [GapAdvertise default_interval_us (_payload (fst s)) true;
              LedOff led_bleu;
              ConsolePrint [PyStr "Deconnecte du central"]]))).
Proof.
  intros Hin. destruct s as [self [g l]].
  unfold _irq, connections_remove, _advertise. mrun.
  destruct (decide (h ∈ _connections self)) as [_|Hn]; [|contradiction].
  mrun. rewrite <- !app_assoc. reflexivity.
Qed.

Lemma irq_disconnect_absent s h addr_type addr :
  h ∉ _connections (fst s) ->
  _irq _IRQ_CENTRAL_DISCONNECT (Tuple3 h addr_type addr) s = (Raise KeyError, s).
Proof.
  intros Hin. destruct s as [self [g l]].
  unfold _irq, connections_remove, _advertise. mrun.
  destruct (decide (h ∈ _connections self)) as [Hn|_]; [contradiction|].
  reflexivity.
Qed.

Lemma irq_write_ignored s conn_handle value_handle :
  ~ accepted s conn_handle value_handle ->
  _irq _IRQ_GATTS_WRITE (Tuple2 conn_handle value_handle) s = (Ret tt, s).
Proof.
  intros Hn. destruct s as [self [g l]].
  unfold _irq, accepted in *. mrun.
  destruct (bool_decide (conn_handle ∈ _connections self)) eqn:Hc; cbn;
    [|reflexivity].
  destruct (value_handle =? _switch_handle self) eqn:Hv; [|reflexivity].
  exfalso. apply Hn. split.
  - by apply bool_decide_eq_true in Hc.
  - by apply Z.eqb_eq.
Qed.

Lemma irq_write_accepted s conn_handle value_handle b rest :
  accepted s conn_handle value_handle ->
  stored (snd s) value_handle = b :: rest ->
  _irq _IRQ_GATTS_WRITE (Tuple2 conn_handle value_handle) s =
  (Ret tt,
   (fst s,
    World (<[value_handle := [xe8; x03; b]]> (gatts (snd s)))
          (log (snd s) ++
             [GattsRead value_handle;
              GattsWrite value_handle [xe8; x03; b];
              GattsNotify conn_handle value_handle [xe8; x03; b];
              actuator_call b]))).
Proof.
  intros [Hc ->] Hs. destruct s as [self [g l]].
  unfold _irq, actuator_call. mrun.
  rewrite bool_decide_eq_true_2 by done. rewrite Z.eqb_refl. cbn.
  rewrite Hs. cbn. rewrite pack_ack. cbn.
  rewrite lookup_insert_eq. cbn.
  destruct (decide (b = x01)) as [->|Hb].
  - cbn. rewrite <- !app_assoc. reflexivity.
  - destruct (Z_of_byte b =? 1) eqn:Hz.
    + apply Z_of_byte_eqb_1 in Hz. contradiction.
    + cbn. rewrite <- !app_assoc. reflexivity.
Qed.

Lemma irq_write_empty s conn_handle value_handle :
  accepted s conn_handle value_handle ->
  stored (snd s) value_handle = [] ->
  _irq _IRQ_GATTS_WRITE (Tuple2 conn_handle value_handle) s =
  (Raise IndexError,
   (fst s, World (gatts (snd s)) (log (snd s) ++ [GattsRead value_handle]))).
Proof.
  intros [Hc ->] Hs. destruct s as [self [g l]].
  unfold _irq. mrun.
  rewrite bool_decide_eq_true_2 by done. rewrite Z.eqb_refl. cbn.
  rewrite Hs. reflexivity.
Qed.

End SensorIrq.

(* ===================================================================== *)
(** * The event callback of [BLEenvironment]                               *)
(* ===================================================================== *)

Section EnvIrq.
Import Main.

Implicit Types (s : st BLEenvironment).

Lemma env_irq_connect s h addr_type addr :
  _irq _IRQ_CENTRAL_CONNECT (Tuple3 h addr_type addr) s =
  (Ret tt,
   (set_connections (fun c => {[h]} ∪ c) (fst s),
    World (gatts (snd s)) (log (snd s) ++ [ConsolePrint [PyStr "Connecte"]]))).
Proof.
  destruct s as [self [g l]]. unfold _irq, connections_add. mrun. reflexivity.
Qed.

Lemma env_irq_disconnect_member s h addr_type addr :
  h ∈ _connections (fst s) ->
  _irq _IRQ_CENTRAL_DISCONNECT (Tuple3 h addr_type addr) s =
  (Ret tt,
   (set_connections (fun c => c ∖ {[h]}) (fst s),
    World (gatts (snd s))
          (log (snd s) ++
             [ConsolePrint [PyStr "Deconnecte"];
              GapAdvertise default_interval_us (_payload (fst s)) true]))).
Proof.
  intros Hin. destruct s as [self [g l]].
  unfold _irq, connections_remove, _advertise. mrun.
  destruct (decide (h ∈ _connections self)) as [_|Hn]; [|contradiction].
  mrun. rewrite <- !app_assoc. reflexivity.
Qed.

Lemma env_irq_disconnect_absent s h addr_type addr :
  h ∉ _connections (fst s) ->
  _irq _IRQ_CENTRAL_DISCONNECT (Tuple3 h addr_type addr) s = (Raise KeyError, s).
Proof.
  intros Hin. destruct s as [self [g l]].
  unfold _irq, connections_remove, _advertise. mrun.
  destruct (decide (h ∈ _connections self)) as [Hn|_]; [contradiction|].
  reflexivity.
Qed.

End EnvIrq.

(* ===================================================================== *)
(** * Publishing                                                           *)
(* ===================================================================== *)

Lemma for_each_log {S A} (self : S) g (f : A -> list effect)
    (body : A -> M S unit) (hs : list A) :
  (forall h l, body h (self, World g l) = (Ret tt, (self, World g (l ++ f h)))) ->
  forall l,
    for_each hs body (self, World g l) =
    (Ret tt, (self, World g (l ++ flat_map f hs))).
Proof.
  intros Hbody. induction hs as [|h hs IH]; intros l; cbn.
  - rewrite app_nil_r. reflexivity.
  - unfold bind. rewrite Hbody, IH, <- app_assoc. reflexivity.
Qed.

Lemma set_data_temperature_run (s : st BleSensor.BLESensor) v (notify : bool) :
  let th := BleSensor._temperature_handle (fst s) in
  BleSensor.set_data_temperature v notify s =
  (Ret tt,
   (fst s,
    World (<[th := binary32_le v]> (gatts (snd s)))
          (log (snd s) ++
             GattsWrite th (binary32_le v) ::
             (if notify
              then flat_map (sensor_fanout v th (binary32_le v))
                     (elements (BleSensor._connections (fst s)))
              else [])))).
Proof.
  destruct s as [self [g l]]. cbn.
  unfold BleSensor.set_data_temperature. mrun. rewrite pack_float. cbn.
  destruct notify; [|reflexivity].
  rewrite (for_each_log _ _
             (sensor_fanout v (BleSensor._temperature_handle self) (binary32_le v))).
  - rewrite <- app_assoc. reflexivity.
  - intros h l'. cbn. rewrite lookup_insert_eq. cbn.
    rewrite <- app_assoc. reflexivity.
Qed.

Lemma set_temp_run (s : st Main.BLEenvironment) v (notify indicate : bool) :
  let th := Main._temp_handle (fst s) in
  Main.set_temp v notify indicate s =
  (Ret tt,
   (fst s,
    World (<[th := binary32_le v]> (gatts (snd s)))
          (log (snd s) ++
             GattsWrite th (binary32_le v) ::
             flat_map (env_fanout notify indicate th (binary32_le v))
               (elements (Main._connections (fst s)))))).
Proof.
  destruct s as [self [g l]]. cbn.
  unfold Main.set_temp. mrun. rewrite pack_float. cbn.
  destruct (notify || indicate) eqn:Hf.
  - rewrite (for_each_log _ _
               (env_fanout notify indicate (Main._temp_handle self) (binary32_le v))).
    + rewrite <- app_assoc. reflexivity.
    + intros h l'. unfold env_fanout.
      destruct notify, indicate; cbn; rewrite ?lookup_insert_eq; cbn;
        rewrite <- ?app_assoc, ?app_nil_r; reflexivity.
  - apply orb_false_elim in Hf as [-> ->]. unfold env_fanout. cbn.
    assert (Hnil : forall hs : list Z, flat_map (fun _ : Z => @nil effect) hs = []).
    { induction hs; cbn; auto. }
    rewrite Hnil. reflexivity.
Qed.

(* ===================================================================== *)
(** * Calls made by one invocation                                         *)
(* ===================================================================== *)

Lemma effects_of_appended {S A} (m : M S A) (s : st S) r self g es :
  m s = (r, (self, World g (log (snd s) ++ es))) -> effects_of m s = es.
Proof.
  intros H. unfold effects_of. rewrite H. cbn. apply drop_app_length.
Qed.

Lemma effects_of_unchanged {S A} (m : M S A) (s : st S) r :
  m s = (r, s) -> effects_of m s = [].
Proof.
  intros H. unfold effects_of. rewrite H. cbn. apply drop_all.
Qed.

Lemma accepted_sensor_state (h : Z) (c : gset Z) (value : bytes) :
  h ∈ c -> accepted (sensor_state c value) h 2.
Proof. intros Hin. split; [exact Hin | reflexivity]. Qed.

Lemma stored_sensor_state (c : gset Z) (value : bytes) :
  stored (snd (sensor_state c value)) 2 = value.
Proof. unfold stored, sensor_state. cbn. rewrite lookup_singleton_eq. reflexivity. Qed.

(* ===================================================================== *)
(** * Write events                                                         *)
(* ===================================================================== *)

Lemma write_capable_handles_switch (self : BleSensor.BLESensor) :
  write_capable_handles self = [BleSensor._switch_handle self].
Proof. reflexivity. Qed.

(** C3: a write event whose connection handle is not in the registry, or
    whose value handle is not that of a characteristic with the write
    flag (the switch is the only one), returns normally and leaves the
    whole state as it was: no LED call, no storage write, no notify. *)
Theorem foreign_write_is_noop (s : st BleSensor.BLESensor) (conn_handle value_handle : Z) :
  (conn_handle ∉ BleSensor._connections (fst s)) \/
    (value_handle ∉ write_capable_handles (fst s)) ->
  BleSensor._irq BleSensor._IRQ_GATTS_WRITE (Tuple2 conn_handle value_handle) s = (Ret tt, s)
  /\ effects_of (BleSensor._irq BleSensor._IRQ_GATTS_WRITE (Tuple2 conn_handle value_handle)) s = [].
Proof.
  intros H.
  assert (Hn : ~ accepted s conn_handle value_handle).
  { intros [Hc Hv]. destruct H as [H|H]; [contradiction|].
    apply H. rewrite write_capable_handles_switch, Hv.
    apply list_elem_of_singleton. reflexivity. }
  pose proof (irq_write_ignored s conn_handle value_handle Hn) as Heq.
  split; [exact Heq|]. eapply effects_of_unchanged, Heq.
Qed.

(** After connect(h) then disconnect(h), a late write by [h] to any
    characteristic, whatever the payload the stack stored for it, changes
    nothing and raises nothing. *)
Lemma write_after_disconnect (s : st BleSensor.BLESensor) h t1 a1 t2 a2 vh payload :
  let s2 := sensor_replay [CentralConnect h t1 a1; CentralDisconnect h t2 a2] s in
  (h ∉ BleSensor._connections (fst s2)) /\
  BleSensor._irq BleSensor._IRQ_GATTS_WRITE (Tuple2 h vh) (stack_store vh payload s2)
    = (Ret tt, stack_store vh payload s2) /\
  sensor_replay [CentralConnect h t1 a1; CentralDisconnect h t2 a2; CentralWrites h vh payload] s
    = stack_store vh payload s2.
Proof.
  cbn zeta.
  assert (Hs2 : h ∉ BleSensor._connections
                  (fst (sensor_replay [CentralConnect h t1 a1; CentralDisconnect h t2 a2] s))).
  { unfold sensor_replay, replay, CentralConnect, CentralDisconnect.
    cbn [fold_left run_op].
    change 1 with BleSensor._IRQ_CENTRAL_CONNECT.
    change 2 with BleSensor._IRQ_CENTRAL_DISCONNECT.
    rewrite irq_connect. cbn [snd].
    rewrite irq_disconnect_member
      by (cbn; apply elem_of_union_l, elem_of_singleton; reflexivity).
    cbn. rewrite elem_of_difference, elem_of_singleton. tauto. }
  assert (Hirq : BleSensor._irq BleSensor._IRQ_GATTS_WRITE (Tuple2 h vh)
                   (stack_store vh payload
                      (sensor_replay [CentralConnect h t1 a1; CentralDisconnect h t2 a2] s))
                 = (Ret tt, stack_store vh payload
                      (sensor_replay [CentralConnect h t1 a1; CentralDisconnect h t2 a2] s))).
  { apply irq_write_ignored. intros [Hc _]. apply Hs2. exact Hc. }
  split; [exact Hs2|]. split; [exact Hirq|].
  change [CentralConnect h t1 a1; CentralDisconnect h t2 a2; CentralWrites h vh payload]
    with ([CentralConnect h t1 a1; CentralDisconnect h t2 a2] ++ [@CentralWrites (spec_float * bool) h vh payload]).
  unfold sensor_replay, replay. rewrite fold_left_app. cbn [fold_left run_op].
  unfold sensor_replay, replay in Hirq. cbn [fold_left] in Hirq.
  change IRQ_GATTS_WRITE with BleSensor._IRQ_GATTS_WRITE.
  cbn [fold_left]. rewrite Hirq. reflexivity.
Qed.

(** The race of the scenario, on handle 7 of a fresh object. *)
Lemma foreign_write_is_noop_witness :
  let s2 := stack_store 2 [x01]
              (sensor_replay [CentralConnect 7 0 []; CentralDisconnect 7 0 []]
                             (sensor_state ∅ [])) in
  BleSensor._irq BleSensor._IRQ_GATTS_WRITE (Tuple2 7 2) s2 = (Ret tt, s2)
  /\ effects_of (BleSensor._irq BleSensor._IRQ_GATTS_WRITE (Tuple2 7 2)) s2 = [].
Proof.
  cbn zeta. apply foreign_write_is_noop. left.
  apply (write_after_disconnect (sensor_state ∅ []) 7 0 [] 0 [] 2 [x01]).
Defined.

Lemma accepted_stack_store (s : st BleSensor.BLESensor) conn_handle value_handle vh payload :
  accepted s conn_handle value_handle ->
  accepted (stack_store vh payload s) conn_handle value_handle.
Proof. intros H. exact H. Qed.

Lemma stored_stack_store {S} (s : st S) vh payload :
  stored (snd (stack_store vh payload s)) vh = payload.
Proof. unfold stored, stack_store. cbn. rewrite lookup_insert_eq. reflexivity. Qed.

(** C4: with exactly [h1] connected, a central writing the byte 1 to the
    switch characteristic makes the callback turn the red LED on once,
    leave E8 03 01 (1000 little-endian, then 1) in the switch storage and
    notify once, to [h1]. *)
Theorem switch_on_scenario (s : st BleSensor.BLESensor) (h1 : Z) :
  BleSensor._connections (fst s) = {[h1]} ->
  let sw := BleSensor._switch_handle (fst s) in
  let ack := [xe8; x03; x01] in
  let call := BleSensor._irq BleSensor._IRQ_GATTS_WRITE (Tuple2 h1 sw) in
  let s1 := stack_store sw [x01] s in
  call s1 =
    (Ret tt,
     (fst s,
      World (<[sw := ack]> (gatts (snd s)))
            (log (snd s) ++
               [GattsRead sw; GattsWrite sw ack; GattsNotify h1 sw ack;
                LedOn BleSensor.led_rouge])))
  /\ stored (snd (snd (call s1))) sw = ack
  /\ Z_of_byte xe8 + 256 * Z_of_byte x03 = 1000
  /\ List.filter is_actuator (effects_of call s1) = [LedOn BleSensor.led_rouge]
  /\ List.filter is_notify (effects_of call s1) = [GattsNotify h1 sw ack].
Proof.
  intros Hc sw ack call s1.
  assert (Hacc : accepted s1 h1 sw).
  { split; [cbn; rewrite Hc; apply elem_of_singleton; reflexivity | reflexivity]. }
  pose proof (irq_write_accepted s1 h1 sw x01 [] Hacc (stored_stack_store s sw [x01])) as Hrun.
  fold call in Hrun. unfold s1 at 2 3 4 in Hrun. cbn [fst snd stack_store gatts log] in Hrun.
  rewrite insert_insert_eq in Hrun. change (actuator_call x01) with (LedOn BleSensor.led_rouge) in Hrun.
  assert (Heff : effects_of call s1 =
                 [GattsRead sw; GattsWrite sw ack; GattsNotify h1 sw ack;
                  LedOn BleSensor.led_rouge]).
  { eapply effects_of_appended. rewrite Hrun. reflexivity. }
  split; [exact Hrun|]. split.
  { rewrite Hrun. unfold stored. cbn. rewrite lookup_insert_eq. reflexivity. }
  split; [reflexivity|].
  rewrite Heff. split; reflexivity.
Qed.

Lemma switch_on_scenario_witness :
  let s := sensor_state {[7]} [] in
  let call := BleSensor._irq BleSensor._IRQ_GATTS_WRITE (Tuple2 7 2) in
  let s1 := stack_store 2 [x01] s in
  call s1 =
    (Ret tt,
     (fst s,
      World (<[2 := [xe8; x03; x01]]> (gatts (snd s)))
            (log (snd s) ++
               [GattsRead 2; GattsWrite 2 [xe8; x03; x01];
                GattsNotify 7 2 [xe8; x03; x01]; LedOn BleSensor.led_rouge])))
  /\ stored (snd (snd (call s1))) 2 = [xe8; x03; x01]
  /\ Z_of_byte xe8 + 256 * Z_of_byte x03 = 1000
  /\ List.filter is_actuator (effects_of call s1) = [LedOn BleSensor.led_rouge]
  /\ List.filter is_notify (effects_of call s1) = [GattsNotify 7 2 [xe8; x03; x01]].
Proof.
  apply (switch_on_scenario (sensor_state {[7]} []) 7). reflexivity.
Defined.

Lemma actuator_call_on (b : byte) :
  actuator_call b = LedOn BleSensor.led_rouge <-> b = x01.
Proof.
  unfold actuator_call. destruct (decide (b = x01)) as [->|Hb].
  - split; reflexivity.
  - split; [discriminate | contradiction].
Qed.

(** C10: an accepted switch write with a non-empty stored payload is
    decided by byte 0 alone: that byte is echoed after the little-endian
    1000 in the acknowledgement, the red LED is switched on exactly when
    it equals 1 and off for every other value, and the bytes that follow
    it play no part. *)
Theorem switch_write_reads_byte0 (s : st BleSensor.BLESensor)
    (conn_handle value_handle : Z) (b : byte) (rest : bytes) :
  accepted s conn_handle value_handle ->
  stored (snd s) value_handle = b :: rest ->
  let call := BleSensor._irq BleSensor._IRQ_GATTS_WRITE (Tuple2 conn_handle value_handle) in
  call s =
    (Ret tt,
     (fst s,
      World (<[value_handle := [xe8; x03; b]]> (gatts (snd s)))
            (log (snd s) ++
               [GattsRead value_handle;
                GattsWrite value_handle [xe8; x03; b];
                GattsNotify conn_handle value_handle [xe8; x03; b];
                actuator_call b])))
  /\ (actuator_call b = LedOn BleSensor.led_rouge <-> b = x01)
  /\ (b <> x01 -> actuator_call b = LedOff BleSensor.led_rouge)
  /\ (forall rest',
        call (stack_store value_handle (b :: rest') s) =
        call (stack_store value_handle [b] s)).
Proof.
  intros Hacc Hs call. split; [exact (irq_write_accepted _ _ _ _ _ Hacc Hs)|].
  split; [apply actuator_call_on|]. split.
  - intros Hb. unfold actuator_call. destruct (decide (b = x01)); [contradiction|reflexivity].
  - intros rest'. unfold call.
    rewrite (irq_write_accepted _ _ _ b rest'
               (accepted_stack_store _ _ _ _ _ Hacc) (stored_stack_store _ _ _)).
    rewrite (irq_write_accepted _ _ _ b []
               (accepted_stack_store _ _ _ _ _ Hacc) (stored_stack_store _ _ _)).
    cbn [fst snd stack_store gatts log]. rewrite !insert_insert_eq. reflexivity.
Qed.

Lemma switch_write_reads_byte0_witness :
  let s := sensor_state {[7]} [x02; xff] in
  let call := BleSensor._irq BleSensor._IRQ_GATTS_WRITE (Tuple2 7 2) in
  call s =
    (Ret tt,
     (fst s,
      World (<[2 := [xe8; x03; x02]]> (gatts (snd s)))
            (log (snd s) ++
               [GattsRead 2; GattsWrite 2 [xe8; x03; x02];
                GattsNotify 7 2 [xe8; x03; x02]; actuator_call x02])))
  /\ (actuator_call x02 = LedOn BleSensor.led_rouge <-> x02 = x01)
  /\ (x02 <> x01 -> actuator_call x02 = LedOff BleSensor.led_rouge)
  /\ (forall rest',
        call (stack_store 2 (x02 :: rest') s) = call (stack_store 2 [x02] s)).
Proof.
  apply (switch_write_reads_byte0 (sensor_state {[7]} [x02; xff]) 7 2 x02 [xff]).
  - apply accepted_sensor_state, elem_of_singleton. reflexivity.
  - apply stored_sensor_state.
Defined.

Lemma irq_write_effects (s : st BleSensor.BLESensor) (conn_handle value_handle : Z) :
  accepted s conn_handle value_handle ->
  effects_of (BleSensor._irq BleSensor._IRQ_GATTS_WRITE (Tuple2 conn_handle value_handle)) s =
  GattsRead value_handle ::
    match stored (snd s) value_handle with
    | [] => []
    | b :: _ =>
        [GattsWrite value_handle [xe8; x03; b];
         GattsNotify conn_handle value_handle [xe8; x03; b];
         actuator_call b]
    end.
Proof.
  intros Hacc. destruct (stored (snd s) value_handle) as [|b rest] eqn:Hs.
  - eapply effects_of_appended. apply (irq_write_empty _ _ _ Hacc Hs).
  - eapply effects_of_appended. apply (irq_write_accepted _ _ _ _ _ Hacc Hs).
Qed.

(** With handle 7 connected and the byte 1 stored, the LED call is the
    last call of the callback: none precedes the notify. *)
Lemma actuator_not_before_notify :
  ~ actuator_before_notify
      (effects_of (BleSensor._irq BleSensor._IRQ_GATTS_WRITE (Tuple2 7 2))
                  (sensor_state {[7]} [x01])).
Proof.
  rewrite irq_write_effects
    by (apply accepted_sensor_state, elem_of_singleton; reflexivity).
  rewrite stored_sensor_state.
  intros (i & j & a & n & Hlt & Hi & Hj & Ha & Hn).
  destruct j as [|[|[|[|j]]]]; cbn in Hj; try discriminate;
    injection Hj as <-; try discriminate Hn.
  destruct i as [|[|i]]; cbn in Hi; try lia;
    injection Hi as <-; discriminate Ha.
Qed.

(** C5 (amended): for every accepted write event the callback first reads
    the stored bytes; when they are not empty it then writes the
    acknowledgement into the same storage, then notifies the originating
    connection, and only then switches the LED.  With an empty payload it
    stops after the read. *)
Theorem accepted_write_order (s : st BleSensor.BLESensor) (conn_handle value_handle : Z) :
  accepted s conn_handle value_handle ->
  effects_of (BleSensor._irq BleSensor._IRQ_GATTS_WRITE (Tuple2 conn_handle value_handle)) s =
  GattsRead value_handle ::
    match stored (snd s) value_handle with
    | [] => []
    | b :: _ =>
        [GattsWrite value_handle [xe8; x03; b];
         GattsNotify conn_handle value_handle [xe8; x03; b];
         actuator_call b]
    end.
Proof. apply irq_write_effects. Qed.

Lemma accepted_write_order_witness :
  effects_of (BleSensor._irq BleSensor._IRQ_GATTS_WRITE (Tuple2 7 2))
             (sensor_state {[7]} [x01]) =
  GattsRead 2 ::
    match stored (snd (sensor_state {[7]} [x01])) 2 with
    | [] => []
    | b :: _ =>
        [GattsWrite 2 [xe8; x03; b]; GattsNotify 7 2 [xe8; x03; b]; actuator_call b]
    end.
Proof.
  apply (accepted_write_order (sensor_state {[7]} [x01]) 7 2).
  apply accepted_sensor_state, elem_of_singleton. reflexivity.
Defined.

(** With handle 7 connected and nothing stored for the switch, the
    callback is left by an exception. *)
Lemma empty_payload_escapes :
  ~ handled_locally (BleSensor._irq BleSensor._IRQ_GATTS_WRITE (Tuple2 7 2))
                    (sensor_state {[7]} []).
Proof.
  intros [a Ha].
  rewrite (irq_write_empty (sensor_state {[7]} []) 7 2) in Ha.
  - discriminate Ha.
  - apply accepted_sensor_state, elem_of_singleton. reflexivity.
  - apply stored_sensor_state.
Qed.

(** C7 (amended): an accepted switch write whose stored payload is empty
    makes the subscript of byte 0 raise [IndexError], which leaves the
    callback; the read is the only call made, so neither the storage nor
    the registry changes and there is no notify and no LED call.  Every
    non-empty payload, whatever its length, is processed and returns
    normally. *)
Theorem empty_payload_raises (s : st BleSensor.BLESensor) (conn_handle value_handle : Z) :
  accepted s conn_handle value_handle ->
  let call := BleSensor._irq BleSensor._IRQ_GATTS_WRITE (Tuple2 conn_handle value_handle) in
  (stored (snd s) value_handle = [] ->
     call s =
       (Raise IndexError,
        (fst s, World (gatts (snd s)) (log (snd s) ++ [GattsRead value_handle]))))
  /\ (stored (snd s) value_handle <> [] -> fst (call s) = Ret tt).
Proof.
  intros Hacc call. split.
  - intros Hs. apply (irq_write_empty _ _ _ Hacc Hs).
  - intros Hs. destruct (stored (snd s) value_handle) as [|b rest] eqn:Hst;
      [contradiction|].
    unfold call. rewrite (irq_write_accepted _ _ _ _ _ Hacc Hst). reflexivity.
Qed.

Lemma empty_payload_raises_witness :
  let s := sensor_state {[7]} [] in
  let call := BleSensor._irq BleSensor._IRQ_GATTS_WRITE (Tuple2 7 2) in
  (stored (snd s) 2 = [] ->
     call s = (Raise IndexError, (fst s, World (gatts (snd s)) (log (snd s) ++ [GattsRead 2]))))
  /\ (stored (snd s) 2 <> [] -> fst (call s) = Ret tt).
Proof.
  apply (empty_payload_raises (sensor_state {[7]} []) 7 2).
  apply accepted_sensor_state, elem_of_singleton. reflexivity.
Defined.

(* ===================================================================== *)
(** * Disconnect of a handle that is not registered                        *)
(* ===================================================================== *)

(** On a fresh object, the disconnect of handle 7 is left by an exception
    and advertising is not restarted. *)
Lemma stale_disconnect_escapes :
  ~ handled_locally (BleSensor._irq BleSensor._IRQ_CENTRAL_DISCONNECT (Tuple3 7 0 []))
                    (sensor_state ∅ [])
  /\ ~ rearms_advertising (BleSensor._irq BleSensor._IRQ_CENTRAL_DISCONNECT (Tuple3 7 0 []))
                          (sensor_state ∅ []).
Proof.
  assert (H : BleSensor._irq BleSensor._IRQ_CENTRAL_DISCONNECT (Tuple3 7 0 [])
                (sensor_state ∅ []) = (Raise KeyError, sensor_state ∅ [])).
  { apply irq_disconnect_absent. cbn. apply not_elem_of_empty. }
  split.
  - intros [a Ha]. rewrite H in Ha. discriminate Ha.
  - intros (i & p & c & Hin). rewrite (effects_of_unchanged _ _ _ H) in Hin.
    by apply not_elem_of_nil in Hin.
Qed.

(** C2 (amended): a disconnect event for a handle that is not in the
    registry (the empty registry included) makes [set.remove] raise
    [KeyError]; the exception leaves the callback, the registry and the
    rest of the state are unchanged, and no call is made: advertising is
    not restarted.  Both callbacks behave so. *)
Theorem stale_disconnect_raises :
  (forall (s : st BleSensor.BLESensor) h addr_type addr,
     h ∉ BleSensor._connections (fst s) ->
     BleSensor._irq BleSensor._IRQ_CENTRAL_DISCONNECT (Tuple3 h addr_type addr) s
       = (Raise KeyError, s)
     /\ effects_of (BleSensor._irq BleSensor._IRQ_CENTRAL_DISCONNECT (Tuple3 h addr_type addr)) s = [])
  /\ (forall (s : st Main.BLEenvironment) h addr_type addr,
     h ∉ Main._connections (fst s) ->
     Main._irq Main._IRQ_CENTRAL_DISCONNECT (Tuple3 h addr_type addr) s
       = (Raise KeyError, s)
     /\ effects_of (Main._irq Main._IRQ_CENTRAL_DISCONNECT (Tuple3 h addr_type addr)) s = []).
Proof.
  split; intros s h addr_type addr Hn.
  - pose proof (irq_disconnect_absent s h addr_type addr Hn) as H.
    split; [exact H | exact (effects_of_unchanged _ _ _ H)].
  - pose proof (env_irq_disconnect_absent s h addr_type addr Hn) as H.
    split; [exact H | exact (effects_of_unchanged _ _ _ H)].
Qed.

Lemma stale_disconnect_raises_witness :
  (BleSensor._irq BleSensor._IRQ_CENTRAL_DISCONNECT (Tuple3 7 0 []) (sensor_state ∅ [])
     = (Raise KeyError, sensor_state ∅ [])
   /\ effects_of (BleSensor._irq BleSensor._IRQ_CENTRAL_DISCONNECT (Tuple3 7 0 []))
                 (sensor_state ∅ []) = [])
  /\ (Main._irq Main._IRQ_CENTRAL_DISCONNECT (Tuple3 7 0 []) (env_state ∅)
     = (Raise KeyError, env_state ∅)
   /\ effects_of (Main._irq Main._IRQ_CENTRAL_DISCONNECT (Tuple3 7 0 []))
                 (env_state ∅) = []).
Proof.
  split.
  - apply (proj1 stale_disconnect_raises (sensor_state ∅ []) 7 0 []).
    cbn. apply not_elem_of_empty.
  - apply (proj2 stale_disconnect_raises (env_state ∅) 7 0 []).
    cbn. apply not_elem_of_empty.
Defined.

(* ===================================================================== *)
(** * The connection registry under replay                                 *)
(* ===================================================================== *)

Section Registry.
Context {P : Type}.
Implicit Types (o : @op P) (ops : list (@op P)) (c : gset Z) (h : Z).

Lemma registry_after_elem c o h :
  h ∈ registry_after c o <-> is_connect_of h o \/ (h ∈ c /\ ~ is_disconnect_of h o).
Proof.
  unfold is_connect_of, is_disconnect_of, CentralConnect, CentralDisconnect.
  destruct o as [event [h' t a|ch vh]|ch vh payload|p]; cbn.
  - destruct (event =? 1) eqn:E1; [apply Z.eqb_eq in E1; subst event|].
    + rewrite elem_of_union, elem_of_singleton. split.
      * intros [->|Hc]; [left; eauto|].
        right. split; [exact Hc|]. intros (t' & a' & [=]).
      * intros [(t' & a' & [= -> _ _])|[Hc _]]; [left; reflexivity|right; exact Hc].
    + destruct (event =? 2) eqn:E2; [apply Z.eqb_eq in E2; subst event|].
      * rewrite elem_of_difference, elem_of_singleton. split.
        -- intros [Hc Hne]. right. split; [exact Hc|].
           intros (t' & a' & [= ->]). apply Hne. reflexivity.
        -- intros [(t' & a' & [=])|[Hc Hnd]]. split; [exact Hc|].
           intros ->. apply Hnd. eauto.
      * split.
        -- intros Hc. right. split; [exact Hc|].
           intros (t' & a' & [= -> _ _ _]). discriminate E2.
        -- intros [(t' & a' & [= -> _ _ _])|[Hc _]]; [discriminate E1|exact Hc].
  - split.
    + intros Hc. right. split; [exact Hc|]. intros (t' & a' & [=]).
    + intros [(t' & a' & [=])|[Hc _]]. exact Hc.
  - split.
    + intros Hc. right. split; [exact Hc|]. intros (t' & a' & [=]).
    + intros [(t' & a' & [=])|[Hc _]]. exact Hc.
  - split.
    + intros Hc. right. split; [exact Hc|]. intros (t' & a' & [=]).
    + intros [(t' & a' & [=])|[Hc _]]. exact Hc.
Qed.

Lemma unmatched_connect_snoc ops o h :
  unmatched_connect h (ops ++ [o]) <->
  is_connect_of h o \/ (unmatched_connect h ops /\ ~ is_disconnect_of h o).
Proof.
  split.
  - intros (before & after & t & a & Heq & Hafter).
    destruct after as [|o' after' _] using rev_ind.
    + left. exists t, a.
      change (before ++ [CentralConnect h t a]) with (before ++ [@CentralConnect P h t a]) in Heq.
      apply app_inj_tail in Heq as [_ ->]. reflexivity.
    + right.
      change (before ++ CentralConnect h t a :: after' ++ [o'])
        with (before ++ (CentralConnect h t a :: after') ++ [o']) in Heq.
      rewrite app_assoc in Heq. apply app_inj_tail in Heq as [-> ->]. split.
      * exists before, after', t, a. split; [reflexivity|].
        intros t' a' Hin. apply (Hafter t' a'). apply elem_of_app. left. exact Hin.
      * intros (t' & a' & ->). apply (Hafter t' a').
        apply elem_of_app. right. apply list_elem_of_singleton. reflexivity.
  - intros [(t & a & ->)|[(before & after & t & a & -> & Hafter) Hnd]].
    + exists ops, [], t, a. split; [reflexivity|].
      intros t' a' Hin. by apply not_elem_of_nil in Hin.
    + exists before, (after ++ [o]), t, a. split.
      * rewrite <- app_assoc. reflexivity.
      * intros t' a' Hin. apply elem_of_app in Hin as [Hin|Hin].
        -- apply (Hafter t' a' Hin).
        -- apply list_elem_of_singleton in Hin. apply Hnd.
           exists t', a'. symmetry. exact Hin.
Qed.

Lemma no_disconnect_snoc ops o h :
  (forall t a, CentralDisconnect h t a ∉ ops ++ [o]) <->
  (forall t a, CentralDisconnect h t a ∉ ops) /\ ~ is_disconnect_of h o.
Proof.
  split.
  - intros H. split.
    + intros t a Hin. apply (H t a). apply elem_of_app. left. exact Hin.
    + intros (t & a & ->). apply (H t a). apply elem_of_app. right.
      apply list_elem_of_singleton. reflexivity.
  - intros [H Hnd] t a Hin. apply elem_of_app in Hin as [Hin|Hin].
    + apply (H t a Hin).
    + apply list_elem_of_singleton in Hin. apply Hnd.
      exists t, a. symmetry. exact Hin.
Qed.

Lemma registry_fold_elem ops c h :
  h ∈ fold_left registry_after ops c <->
  unmatched_connect h ops \/ (h ∈ c /\ forall t a, CentralDisconnect h t a ∉ ops).
Proof.
  induction ops as [|o ops IH] using rev_ind.
  - cbn. split.
    + intros Hc. right. split; [exact Hc|]. intros t a Hin.
      by apply not_elem_of_nil in Hin.
    + intros [(before & after & t & a & Heq & _)|[Hc _]]; [|exact Hc].
      destruct before; discriminate Heq.
  - rewrite fold_left_app. cbn [fold_left].
    rewrite registry_after_elem, IH, unmatched_connect_snoc, no_disconnect_snoc.
    tauto.
Qed.

End Registry.

Lemma difference_absent (c : gset Z) (h : Z) : h ∉ c -> c ∖ {[h]} = c.
Proof. intros Hn. apply difference_disjoint_L, disjoint_singleton_r, Hn. Qed.

Lemma sensor_irq_registry (event : Z) (data : irq_data) (s : st BleSensor.BLESensor) :
  BleSensor._connections (fst (snd (BleSensor._irq event data s))) =
  registry_step event data (BleSensor._connections (fst s)).
Proof.
  destruct (event =? 1) eqn:E1; [apply Z.eqb_eq in E1; subst event|].
  { destruct data as [h t a|ch vh].
    - change 1 with BleSensor._IRQ_CENTRAL_CONNECT at 1. rewrite irq_connect. reflexivity.
    - reflexivity. }
  destruct (event =? 2) eqn:E2; [apply Z.eqb_eq in E2; subst event|].
  { destruct data as [h t a|ch vh]; [|reflexivity].
    change 2 with BleSensor._IRQ_CENTRAL_DISCONNECT at 1.
    destruct (decide (h ∈ BleSensor._connections (fst s))) as [Hin|Hn].
    - rewrite irq_disconnect_member by exact Hin. reflexivity.
    - rewrite irq_disconnect_absent by exact Hn. cbn.
      rewrite difference_absent by exact Hn. reflexivity. }
  destruct (event =? 3) eqn:E3; [apply Z.eqb_eq in E3; subst event|].
  { destruct data as [h t a|ch vh]; [reflexivity|].
    change 3 with BleSensor._IRQ_GATTS_WRITE at 1. cbn [registry_step].
    destruct (decide (ch ∈ BleSensor._connections (fst s))) as [Hin|Hn].
    - destruct (Z.eq_dec vh (BleSensor._switch_handle (fst s))) as [Hv|Hv].
      + assert (Hacc : accepted s ch vh) by (split; assumption).
        destruct (stored (snd s) vh) as [|b rest] eqn:Hs.
        * rewrite (irq_write_empty _ _ _ Hacc Hs). reflexivity.
        * rewrite (irq_write_accepted _ _ _ _ _ Hacc Hs). reflexivity.
      + rewrite irq_write_ignored; [reflexivity|]. intros [_ Hv']. contradiction.
    - rewrite irq_write_ignored; [reflexivity|]. intros [Hc _]. contradiction. }
  unfold BleSensor._irq, BleSensor._IRQ_CENTRAL_CONNECT,
    BleSensor._IRQ_CENTRAL_DISCONNECT, BleSensor._IRQ_GATTS_WRITE, registry_step.
  rewrite E1, E2, E3. destruct data; reflexivity.
Qed.

Lemma env_irq_registry (event : Z) (data : irq_data) (s : st Main.BLEenvironment) :
  Main._connections (fst (snd (Main._irq event data s))) =
  registry_step event data (Main._connections (fst s)).
Proof.
  destruct (event =? 1) eqn:E1; [apply Z.eqb_eq in E1; subst event|].
  { destruct data as [h t a|ch vh].
    - change 1 with Main._IRQ_CENTRAL_CONNECT at 1. rewrite env_irq_connect. reflexivity.
    - reflexivity. }
  destruct (event =? 2) eqn:E2; [apply Z.eqb_eq in E2; subst event|].
  { destruct data as [h t a|ch vh]; [|reflexivity].
    change 2 with Main._IRQ_CENTRAL_DISCONNECT at 1.
    destruct (decide (h ∈ Main._connections (fst s))) as [Hin|Hn].
    - rewrite env_irq_disconnect_member by exact Hin. reflexivity.
    - rewrite env_irq_disconnect_absent by exact Hn. cbn.
      rewrite difference_absent by exact Hn. reflexivity. }
  unfold Main._irq, Main._IRQ_CENTRAL_CONNECT, Main._IRQ_CENTRAL_DISCONNECT, registry_step.
  rewrite E1, E2. destruct data; reflexivity.
Qed.

Lemma sensor_replay_registry (ops : list sensor_op) (s : st BleSensor.BLESensor) :
  BleSensor._connections (fst (sensor_replay ops s)) =
  fold_left registry_after ops (BleSensor._connections (fst s)).
Proof.
  revert s. induction ops as [|o ops IH]; intros s; [reflexivity|].
  unfold sensor_replay, replay in *. cbn [fold_left]. rewrite IH. f_equal.
  destruct o as [event data|ch vh payload|[v notify]]; cbn [run_op registry_after].
  - apply sensor_irq_registry.
  - rewrite sensor_irq_registry. reflexivity.
  - cbn [fst snd]. rewrite set_data_temperature_run. reflexivity.
Qed.

Lemma env_replay_registry (ops : list env_op) (s : st Main.BLEenvironment) :
  Main._connections (fst (env_replay ops s)) =
  fold_left registry_after ops (Main._connections (fst s)).
Proof.
  revert s. induction ops as [|o ops IH]; intros s; [reflexivity|].
  unfold env_replay, replay in *. cbn [fold_left]. rewrite IH. f_equal.
  destruct o as [event data|ch vh payload|[[v notify] indicate]]; cbn [run_op registry_after].
  - apply env_irq_registry.
  - rewrite env_irq_registry. reflexivity.
  - cbn [fst snd]. rewrite set_temp_run. reflexivity.
Qed.

Lemma sensor_new_connections handles adv_payload byte_mac name w :
  BleSensor._connections (fst (BleSensor.new handles adv_payload byte_mac name w)) = ∅.
Proof. reflexivity. Qed.

Lemma env_new_connections handles payload byte_mac w :
  Main._connections (fst (Main.new handles payload byte_mac w)) = ∅.
Proof. reflexivity. Qed.

(** C1: after any sequence of operations replayed on a freshly built
    object (connect and disconnect events, with any other events, central
    writes and publishes in between), a handle is in the registry exactly
    when the sequence holds a connect of it that no disconnect of it
    follows.  Connecting a handle twice gives the same registry as
    connecting it once.  This holds for [BLESensor] and for
    [BLEenvironment]. *)
Theorem registry_tracks_unmatched_connects :
  (forall handles adv_payload byte_mac name w (ops : list sensor_op) (h : Z),
     h ∈ BleSensor._connections
           (fst (sensor_replay ops (BleSensor.new handles adv_payload byte_mac name w)))
     <-> unmatched_connect h ops)
  /\ (forall handles payload byte_mac w (ops : list env_op) (h : Z),
     h ∈ Main._connections (fst (env_replay ops (Main.new handles payload byte_mac w)))
     <-> unmatched_connect h ops)
  /\ (forall (s : st BleSensor.BLESensor) h t1 a1 t2 a2,
     BleSensor._connections
       (fst (sensor_replay [CentralConnect h t1 a1; CentralConnect h t2 a2] s)) =
     BleSensor._connections (fst (sensor_replay [CentralConnect h t1 a1] s)))
  /\ (forall (s : st Main.BLEenvironment) h t1 a1 t2 a2,
     Main._connections
       (fst (env_replay [CentralConnect h t1 a1; CentralConnect h t2 a2] s)) =
     Main._connections (fst (env_replay [CentralConnect h t1 a1] s))).
Proof.
  split; [|split; [|split]].
  - intros. rewrite sensor_replay_registry, sensor_new_connections, registry_fold_elem.
    split; [|tauto]. intros [H|[H _]]; [exact H|]. by apply not_elem_of_empty in H.
  - intros. rewrite env_replay_registry, env_new_connections, registry_fold_elem.
    split; [|tauto]. intros [H|[H _]]; [exact H|]. by apply not_elem_of_empty in H.
  - intros. rewrite !sensor_replay_registry. cbn.
    apply set_eq. intros x. rewrite !elem_of_union. tauto.
  - intros. rewrite !env_replay_registry. cbn.
    apply set_eq. intros x. rewrite !elem_of_union. tauto.
Qed.

(* ===================================================================== *)
(** * Publishing a temperature                                             *)
(* ===================================================================== *)

Lemma notify_in_sensor_fanout v th sent (hs : list Z) h vh d :
  GattsNotify h vh d ∈ flat_map (sensor_fanout v th sent) hs <->
  h ∈ hs /\ vh = th /\ d = sent.
Proof.
  rewrite list_elem_of_In, in_flat_map. split.
  - intros (x & Hx & Hin). apply list_elem_of_In in Hx.
    cbn in Hin. destruct Hin as [Hin|[Hin|[]]]; [discriminate Hin|].
    injection Hin as -> -> ->. auto.
  - intros (Hin & -> & ->). exists h. split; [by apply list_elem_of_In|].
    cbn. right. left. reflexivity.
Qed.

Lemma notify_in_env_fanout notify indicate th sent (hs : list Z) h vh d :
  GattsNotify h vh d ∈ flat_map (env_fanout notify indicate th sent) hs <->
  notify = true /\ h ∈ hs /\ vh = th /\ d = sent.
Proof.
  rewrite list_elem_of_In, in_flat_map. split.
  - intros (x & Hx & Hin). apply list_elem_of_In in Hx.
    unfold env_fanout in Hin. destruct notify, indicate; cbn in Hin;
      repeat (destruct Hin as [Hin|Hin]); try discriminate Hin; try contradiction;
      injection Hin as -> -> ->; auto.
  - intros (-> & Hin & -> & ->). exists h. split; [by apply list_elem_of_In|].
    unfold env_fanout. cbn. left. reflexivity.
Qed.

Lemma indicate_in_env_fanout notify indicate th sent (hs : list Z) h vh d :
  GattsIndicate h vh d ∈ flat_map (env_fanout notify indicate th sent) hs <->
  indicate = true /\ h ∈ hs /\ vh = th /\ d = sent.
Proof.
  rewrite list_elem_of_In, in_flat_map. split.
  - intros (x & Hx & Hin). apply list_elem_of_In in Hx.
    unfold env_fanout in Hin. destruct notify, indicate; cbn in Hin;
      repeat (destruct Hin as [Hin|Hin]); try discriminate Hin; try contradiction;
      injection Hin as -> -> ->; auto.
  - intros (-> & Hin & -> & ->). exists h. split; [by apply list_elem_of_In|].
    unfold env_fanout. destruct notify; cbn; auto.
Qed.

Lemma sensor_publish_effects (s : st BleSensor.BLESensor) v (notify : bool) :
  effects_of (BleSensor.set_data_temperature v notify) s =
  GattsWrite (BleSensor._temperature_handle (fst s)) (binary32_le v) ::
    (if notify
     then flat_map (sensor_fanout v (BleSensor._temperature_handle (fst s)) (binary32_le v))
            (elements (BleSensor._connections (fst s)))
     else []).
Proof. eapply effects_of_appended. apply set_data_temperature_run. Qed.

Lemma env_publish_effects (s : st Main.BLEenvironment) v (notify indicate : bool) :
  effects_of (Main.set_temp v notify indicate) s =
  GattsWrite (Main._temp_handle (fst s)) (binary32_le v) ::
    flat_map (env_fanout notify indicate (Main._temp_handle (fst s)) (binary32_le v))
      (elements (Main._connections (fst s))).
Proof. eapply effects_of_appended. apply set_temp_run. Qed.

Lemma binary32_le_21_5 : binary32_le temperature_21_5 = [x00; x00; xac; x41].
Proof. reflexivity. Qed.

(** C6: for every value and every flag setting, publishing returns
    normally and leaves the four little-endian bytes of the binary32
    pattern of the value in the temperature storage, also when no flag is
    set; with the notify flag it notifies every handle of the registry,
    and it never notifies a handle outside it.  This holds for
    [BLESensor.set_data_temperature] and for [BLEenvironment.set_temp].
    The bytes of 21.5 are 00 00 AC 41, and with two handles registered
    both receive them. *)
Theorem publish_stores_and_fans_out :
  (forall (s : st BleSensor.BLESensor) v (notify : bool),
     let th := BleSensor._temperature_handle (fst s) in
     let call := BleSensor.set_data_temperature v notify in
     fst (call s) = Ret tt
     /\ stored (snd (snd (call s))) th = binary32_le v
     /\ pack "<f" [PyFloat v] = Ret (binary32_le v)
     /\ length (binary32_le v) = 4%nat
     /\ (forall h d, GattsNotify h th d ∈ effects_of call s <->
           notify = true /\ h ∈ BleSensor._connections (fst s) /\ d = binary32_le v)
     /\ BleSensor._connections (fst (snd (call s))) = BleSensor._connections (fst s))
  /\ (forall (s : st Main.BLEenvironment) v (notify indicate : bool),
     let th := Main._temp_handle (fst s) in
     let call := Main.set_temp v notify indicate in
     fst (call s) = Ret tt
     /\ stored (snd (snd (call s))) th = binary32_le v
     /\ length (binary32_le v) = 4%nat
     /\ (forall h d, GattsNotify h th d ∈ effects_of call s <->
           notify = true /\ h ∈ Main._connections (fst s) /\ d = binary32_le v)
     /\ (forall h d, GattsIndicate h th d ∈ effects_of call s <->
           indicate = true /\ h ∈ Main._connections (fst s) /\ d = binary32_le v)
     /\ Main._connections (fst (snd (call s))) = Main._connections (fst s))
  /\ binary32_le temperature_21_5 = [x00; x00; xac; x41]
  /\ (forall (s : st BleSensor.BLESensor) (h1 h2 : Z),
     BleSensor._connections (fst s) = {[h1; h2]} ->
     let th := BleSensor._temperature_handle (fst s) in
     let call := BleSensor.set_data_temperature temperature_21_5 true in
     GattsNotify h1 th [x00; x00; xac; x41] ∈ effects_of call s
     /\ GattsNotify h2 th [x00; x00; xac; x41] ∈ effects_of call s
     /\ stored (snd (snd (call s))) th = [x00; x00; xac; x41])
  /\ (forall (s : st Main.BLEenvironment) (h1 h2 : Z),
     Main._connections (fst s) = {[h1; h2]} ->
     let th := Main._temp_handle (fst s) in
     let call := Main.set_temp temperature_21_5 true false in
     GattsNotify h1 th [x00; x00; xac; x41] ∈ effects_of call s
     /\ GattsNotify h2 th [x00; x00; xac; x41] ∈ effects_of call s
     /\ stored (snd (snd (call s))) th = [x00; x00; xac; x41]).
Proof.
  assert (Hsensor : forall (s : st BleSensor.BLESensor) v (notify : bool) h d,
            GattsNotify h (BleSensor._temperature_handle (fst s)) d
              ∈ effects_of (BleSensor.set_data_temperature v notify) s <->
            notify = true /\ h ∈ BleSensor._connections (fst s) /\ d = binary32_le v).
  { intros s v notify h d. rewrite sensor_publish_effects, elem_of_cons.
    destruct notify.
    - rewrite notify_in_sensor_fanout, elem_of_elements. split.
      + intros [Hd|(Hin & _ & ->)]; [discriminate Hd|auto].
      + intros (_ & Hin & ->). right. auto.
    - split.
      + intros [Hd|Hd]; [discriminate Hd|by apply not_elem_of_nil in Hd].
      + intros (Hd & _). discriminate Hd. }
  assert (Henv : forall (s : st Main.BLEenvironment) v (notify indicate : bool) h d,
            GattsNotify h (Main._temp_handle (fst s)) d
              ∈ effects_of (Main.set_temp v notify indicate) s <->
            notify = true /\ h ∈ Main._connections (fst s) /\ d = binary32_le v).
  { intros s v notify indicate h d. rewrite env_publish_effects, elem_of_cons.
    rewrite notify_in_env_fanout, elem_of_elements. split.
    - intros [Hd|(-> & Hin & _ & ->)]; [discriminate Hd|auto].
    - intros (-> & Hin & ->). right. auto. }
  assert (Hstore1 : forall (s : st BleSensor.BLESensor) v (notify : bool),
            stored (snd (snd (BleSensor.set_data_temperature v notify s)))
                   (BleSensor._temperature_handle (fst s)) = binary32_le v).
  { intros. rewrite set_data_temperature_run. unfold stored. cbn.
    rewrite lookup_insert_eq. reflexivity. }
  assert (Hstore2 : forall (s : st Main.BLEenvironment) v (notify indicate : bool),
            stored (snd (snd (Main.set_temp v notify indicate s)))
                   (Main._temp_handle (fst s)) = binary32_le v).
  { intros. rewrite set_temp_run. unfold stored. cbn.
    rewrite lookup_insert_eq. reflexivity. }
  split; [|split; [|split; [|split]]].
  - intros s v notify th call. unfold call, th.
    split; [rewrite set_data_temperature_run; reflexivity|].
    split; [apply Hstore1|]. split; [apply pack_float|]. split; [reflexivity|].
    split; [apply Hsensor|]. rewrite set_data_temperature_run. reflexivity.
  - intros s v notify indicate th call. unfold call, th.
    split; [rewrite set_temp_run; reflexivity|].
    split; [apply Hstore2|]. split; [reflexivity|].
    split; [apply Henv|]. split; [|rewrite set_temp_run; reflexivity].
    intros h d. rewrite env_publish_effects, elem_of_cons.
    rewrite indicate_in_env_fanout, elem_of_elements. split.
    + intros [Hd|(-> & Hin & _ & ->)]; [discriminate Hd|auto].
    + intros (-> & Hin & ->). right. auto.
  - apply binary32_le_21_5.
  - intros s h1 h2 Hc th call. unfold call, th.
    rewrite <- binary32_le_21_5. rewrite !Hsensor, Hstore1, Hc.
    rewrite !elem_of_union, !elem_of_singleton. tauto.
  - intros s h1 h2 Hc th call. unfold call, th.
    rewrite <- binary32_le_21_5. rewrite !Henv, Hstore2, Hc.
    rewrite !elem_of_union, !elem_of_singleton. tauto.
Qed.

Lemma publish_stores_and_fans_out_witness :
  let s := sensor_state {[5; 9]} [] in
  let call := BleSensor.set_data_temperature temperature_21_5 true in
  GattsNotify 5 1 [x00; x00; xac; x41] ∈ effects_of call s
  /\ GattsNotify 9 1 [x00; x00; xac; x41] ∈ effects_of call s
  /\ stored (snd (snd (call s))) 1 = [x00; x00; xac; x41].
Proof.
  apply (proj1 (proj2 (proj2 (proj2 publish_stores_and_fans_out)))
           (sensor_state {[5; 9]} []) 5 9).
  reflexivity.
Defined.

(* ===================================================================== *)
(** * The periodic loop                                                    *)
(* ===================================================================== *)

(** Registers 01 58 hold 344 sixteenths of a degree, that is 21.5. *)
Lemma read_mcp9808_21_5 (s : st Main.BLEenvironment) :
  Main.read_mcp9808_temperature (Ret [x01; x58]) s =
  (Ret (F32.round temperature_21_5), s).
Proof. reflexivity. Qed.

Lemma demo_round_read_failed (env : Main.round_env) (e : exn) (s : st Main.BLEenvironment) :
  Main.i2c_data env = Raise e ->
  Main.demo_round env s =
  (Ret tt,
   (fst s,
    World (gatts (snd s))
          (log (snd s) ++
             [ConsolePrint [PyStr "Erreur lors de la lecture de la temperature :"; PyExn e];
              SleepMs 5000]))).
Proof.
  intros He. destruct s as [self [g l]].
  unfold Main.demo_round, Main.read_mcp9808_temperature. rewrite He.
  mrun. rewrite <- app_assoc. reflexivity.
Qed.

(** A round whose read and display succeed publishes the measurement. *)
Lemma demo_round_publishes (s : st Main.BLEenvironment) :
  GattsWrite (Main._temp_handle (fst s)) [x00; x00; xac; x41]
    ∈ effects_of (Main.demo_round (Main.RoundEnv (Ret [x01; x58]) true)) s.
Proof.
  destruct s as [self [g l]].
  unfold effects_of, Main.demo_round. cbn [Main.i2c_data Main.oled_ok].
  unfold try_except, bind. rewrite read_mcp9808_21_5.
  unfold Main.display_temperature_oled.
  unfold print, emit, ret, bind. cbn [fst snd gatts log].
  rewrite set_temp_run. unfold sleep_ms, emit. cbn [fst snd gatts log].
  rewrite <- !app_assoc. rewrite drop_app_length.
  do 5 (apply elem_of_cons; right). apply elem_of_cons. left.
  reflexivity.
Qed.

(** C9: a round of the loop whose sensor read raises performs no publish:
    its only calls are the error print and the sleep, so the storage is
    not written and nobody is notified; the loop then goes on with the
    next round from that state. *)
Theorem failed_read_skips_publish (env : Main.round_env) (envs : list Main.round_env)
    (e : exn) (s : st Main.BLEenvironment) :
  Main.i2c_data env = Raise e ->
  effects_of (Main.demo_round env) s =
    [ConsolePrint [PyStr "Erreur lors de la lecture de la temperature :"; PyExn e];
     SleepMs 5000]
  /\ List.filter is_storage_write (effects_of (Main.demo_round env) s) = []
  /\ List.filter is_notify (effects_of (Main.demo_round env) s) = []
  /\ fst (Main.demo_round env s) = Ret tt
  /\ gatts (snd (snd (Main.demo_round env s))) = gatts (snd s)
  /\ fst (snd (Main.demo_round env s)) = fst s
  /\ Main.demo_loop (env :: envs) s = Main.demo_loop envs (snd (Main.demo_round env s)).
Proof.
  intros He. pose proof (demo_round_read_failed env e s He) as Hrun.
  assert (Heff : effects_of (Main.demo_round env) s =
                 [ConsolePrint [PyStr "Erreur lors de la lecture de la temperature :"; PyExn e];
                  SleepMs 5000]).
  { eapply effects_of_appended. exact Hrun. }
  split; [exact Heff|]. rewrite Heff.
  split; [reflexivity|]. split; [reflexivity|].
  split; [rewrite Hrun; reflexivity|].
  split; [rewrite Hrun; reflexivity|].
  split; [rewrite Hrun; reflexivity|].
  cbn [Main.demo_loop]. unfold bind. rewrite Hrun. reflexivity.
Qed.

Lemma failed_read_skips_publish_witness :
  let env := Main.RoundEnv (Raise OSError) true in
  let s := env_state {[7]} in
  effects_of (Main.demo_round env) s =
    [ConsolePrint [PyStr "Erreur lors de la lecture de la temperature :"; PyExn OSError];
     SleepMs 5000]
  /\ List.filter is_storage_write (effects_of (Main.demo_round env) s) = []
  /\ List.filter is_notify (effects_of (Main.demo_round env) s) = []
  /\ fst (Main.demo_round env s) = Ret tt
  /\ gatts (snd (snd (Main.demo_round env s))) = gatts (snd s)
  /\ fst (snd (Main.demo_round env s)) = fst s
  /\ Main.demo_loop [env; Main.RoundEnv (Ret [x01; x58]) true] s =
     Main.demo_loop [Main.RoundEnv (Ret [x01; x58]) true] (snd (Main.demo_round env s)).
Proof.
  apply (failed_read_skips_publish (Main.RoundEnv (Raise OSError) true)
           [Main.RoundEnv (Ret [x01; x58]) true] OSError (env_state {[7]})).
  reflexivity.
Defined.

(* ===================================================================== *)
(** * The MCP9808 register decoding                                        *)
(* ===================================================================== *)

Lemma Z_of_byte_range (b : byte) : 0 <= Z_of_byte b < 256.
Proof.
  unfold Z_of_byte. pose proof (Byte.to_N_bounded b). lia.
Qed.

Lemma in_all_bytes (b : byte) : In b all_bytes.
Proof.
  unfold all_bytes. apply in_map_iff.
  exists (Z.to_nat (Z_of_byte b)). pose proof (Z_of_byte_range b). split.
  - rewrite Z2Nat.id by lia. apply byte_of_Z_of_byte.
  - apply in_seq. lia.
Qed.

Lemma in_raw_values (t : Z) : -4096 <= t <= 4095 -> In t raw_values.
Proof.
  intros Ht. unfold raw_values. apply in_map_iff.
  exists (Z.to_nat (t + 4096)). split.
  - rewrite Z2Nat.id by lia. lia.
  - apply in_seq. lia.
Qed.

Lemma forall_bytes2 (p : byte -> byte -> bool) :
  forallb (fun a => forallb (p a) all_bytes) all_bytes = true ->
  forall a b, p a b = true.
Proof.
  intros H a b. rewrite forallb_forall in H.
  specialize (H a (in_all_bytes a)). rewrite forallb_forall in H.
  exact (H b (in_all_bytes b)).
Qed.

Lemma forall_raw_values (p : Z -> bool) :
  forallb p raw_values = true ->
  forall t, -4096 <= t <= 4095 -> p t = true.
Proof.
  intros H t Ht. rewrite forallb_forall in H. exact (H t (in_raw_values t Ht)).
Qed.

Lemma spec_float_eqb_eq (a b : spec_float) : spec_float_eqb a b = true -> a = b.
Proof.
  destruct a as [s|s| |s m e], b as [s'|s'| |s' m' e']; cbn; try discriminate.
  - intros H. apply Bool.eqb_prop in H. now subst.
  - intros H. apply Bool.eqb_prop in H. now subst.
  - reflexivity.
  - intros H. apply andb_prop in H as [H He]. apply andb_prop in H as [Hs Hm].
    apply Bool.eqb_prop in Hs. apply Z.eqb_eq in He. apply Pos.eqb_eq in Hm.
    now subst.
Qed.

Lemma mcp9808_raw_signed13 (d0 d1 : byte) :
  mcp9808_raw d0 d1 = signed13 d0 d1 /\ -4096 <= mcp9808_raw d0 d1 <= 4095.
Proof.
  assert (H : (mcp9808_raw d0 d1 =? signed13 d0 d1)
              && (-4096 <=? mcp9808_raw d0 d1) && (mcp9808_raw d0 d1 <=? 4095) = true).
  { revert d0 d1. apply forall_bytes2. vm_compute. reflexivity. }
  apply andb_prop in H as [H H3]. apply andb_prop in H as [H1 H2].
  apply Z.eqb_eq in H1. lia.
Qed.

Lemma scaled_raw_exact (t : Z) :
  -4096 <= t <= 4095 ->
  sixteenths_of (F32.mul (F32.of_Z t) (S754_finite false 1 (-4))) = Some t.
Proof.
  intros Ht.
  assert (H : match sixteenths_of (F32.mul (F32.of_Z t) (S754_finite false 1 (-4))) with
              | Some n => n =? t
              | None => false
              end = true).
  { revert t Ht. apply forall_raw_values. vm_compute. reflexivity. }
  destruct (sixteenths_of _) as [n|]; [|discriminate H].
  apply Z.eqb_eq in H. now subst.
Qed.

Lemma read_mcp9808_two_bytes {S} (d0 d1 : byte) (rest : bytes) (s : st S) :
  Main.read_mcp9808_temperature (Ret (d0 :: d1 :: rest)) s =
  (Ret (mcp9808_celsius d0 d1), s).
Proof. reflexivity. Qed.

Lemma scaled_raw_round_trips (t : Z) :
  -4096 <= t <= 4095 ->
  binary32_decode
    (bytes_le_to_Z (binary32_le (F32.mul (F32.of_Z t) (S754_finite false 1 (-4))))) =
  F32.mul (F32.of_Z t) (S754_finite false 1 (-4)).
Proof.
  intros Ht. apply spec_float_eqb_eq. revert t Ht.
  apply (forall_raw_values
           (fun t => spec_float_eqb
              (binary32_decode
                 (bytes_le_to_Z (binary32_le (F32.mul (F32.of_Z t) (S754_finite false 1 (-4))))))
              (F32.mul (F32.of_Z t) (S754_finite false 1 (-4))))).
  vm_compute. reflexivity.
Qed.

(** X1: for every content of the two temperature register bytes (and
    whatever follows them), [read_mcp9808_temperature] returns, without
    touching the state, a float that is exactly one sixteenth of the
    low 13 bits read as a two's-complement number: no rounding occurs,
    the three flag bits of the upper byte play no part, and the value
    lies between -4096/16 and 4095/16 degrees. *)
Theorem mcp9808_reading_exact (d0 d1 : byte) (rest : bytes) (s : st Main.BLEenvironment) :
  exists f : spec_float,
    Main.read_mcp9808_temperature (Ret (d0 :: d1 :: rest)) s = (Ret f, s)
    /\ sixteenths_of f = Some (signed13 d0 d1)
    /\ -4096 <= signed13 d0 d1 <= 4095
    /\ (signed13 d0 d1 < 0 <-> Z.testbit (Z_of_byte d0) 4 = true).
Proof.
  exists (mcp9808_celsius d0 d1).
  destruct (mcp9808_raw_signed13 d0 d1) as [Hraw Hrange].
  split; [apply read_mcp9808_two_bytes|]. split.
  - unfold mcp9808_celsius. rewrite <- Hraw. apply scaled_raw_exact, Hrange.
  - split; [rewrite <- Hraw; exact Hrange|].
    assert (H : Bool.eqb (signed13 d0 d1 <? 0) (Z.testbit (Z_of_byte d0) 4) = true).
    { revert d0 d1 Hraw Hrange. intros d0 d1 _ _. revert d0 d1.
      apply forall_bytes2. vm_compute. reflexivity. }
    apply Bool.eqb_prop in H. rewrite <- H. symmetry. apply Z.ltb_lt.
Qed.



(** X3: every temperature that the sensor decoding can return survives
    the trip over the air: after [set_temp] has published it, the four
    stored bytes, read back as a little-endian binary32 value, are that
    temperature again. *)
Theorem mcp9808_reading_round_trips (d0 d1 : byte) (rest : bytes) (f : spec_float)
    (notify indicate : bool) (s : st Main.BLEenvironment) :
  fst (Main.read_mcp9808_temperature (Ret (d0 :: d1 :: rest)) s) = Ret f ->
  let sent := stored (snd (snd (Main.set_temp f notify indicate s)))
                     (Main._temp_handle (fst s)) in
  length sent = 4%nat /\ binary32_decode (bytes_le_to_Z sent) = f.
Proof.
  intros Hread sent.
  rewrite read_mcp9808_two_bytes in Hread. cbn in Hread. injection Hread as <-.
  assert (Hsent : sent = binary32_le (mcp9808_celsius d0 d1)).
  { unfold sent. rewrite set_temp_run. unfold stored. cbn.
    rewrite lookup_insert_eq. reflexivity. }
  rewrite Hsent. split; [reflexivity|].
  unfold mcp9808_celsius. apply scaled_raw_round_trips.
  apply mcp9808_raw_signed13.
Qed.

Lemma mcp9808_reading_round_trips_witness :
  let sent := stored (snd (snd (Main.set_temp (mcp9808_celsius x01 x58) true false
                                  (env_state {[7]}))))
                     (Main._temp_handle (fst (env_state {[7]}))) in
  length sent = 4%nat /\ binary32_decode (bytes_le_to_Z sent) = mcp9808_celsius x01 x58.
Proof.
  apply (mcp9808_reading_round_trips x01 x58 [] (mcp9808_celsius x01 x58) true false
           (env_state {[7]})).
  reflexivity.
Defined.

(* ===================================================================== *)
(** * Rounds of the loop                                                   *)
(* ===================================================================== *)

Lemma read_mcp9808_reading (env : Main.round_env) (s : st Main.BLEenvironment) :
  Main.read_mcp9808_temperature (Main.i2c_data env) s = (round_reading env, s).
Proof.
  unfold round_reading.
  destruct (Main.i2c_data env) as [[|d0 [|d1 rest]]|e]; reflexivity.
Qed.

Lemma demo_round_no_reading (env : Main.round_env) (e : exn) (s : st Main.BLEenvironment) :
  round_reading env = Raise e ->
  Main.demo_round env s =
  (Ret tt,
   (fst s,
    World (gatts (snd s))
          (log (snd s) ++
             [ConsolePrint [PyStr "Erreur lors de la lecture de la temperature :"; PyExn e]]
             ++ [SleepMs 5000]))).
Proof.
  intros He. destruct s as [self [g l]].
  unfold Main.demo_round. unfold try_except, bind.
  rewrite read_mcp9808_reading, He.
  unfold sleep_ms, print, emit, ret. cbn [fst snd gatts log].
  rewrite <- app_assoc. reflexivity.
Qed.

Lemma demo_round_display_failed (env : Main.round_env) (t : spec_float)
    (s : st Main.BLEenvironment) :
  round_reading env = Ret t ->
  Main.oled_ok env = false ->
  Main.demo_round env s =
  (Ret tt,
   (fst s,
    World (gatts (snd s))
          (log (snd s) ++
             [ConsolePrint [PyFormat "Temperature mesuree : {:.2f} °C" t];
              OledFill 0;
              OledText (PyStr "Temperature:") 0 0;
              OledText (PyFormat "{:.2f} C" t) 0 20;
              ConsolePrint [PyStr "Erreur lors de la lecture de la temperature :";
                            PyExn OSError]]
             ++ [SleepMs 5000]))).
Proof.
  intros Ht Holed. destruct s as [self [g l]].
  unfold Main.demo_round. unfold try_except, bind.
  rewrite read_mcp9808_reading, Ht.
  unfold Main.display_temperature_oled. rewrite Holed.
  unfold sleep_ms, print, emit, ret, raise, bind. cbn [fst snd gatts log].
  rewrite <- !app_assoc. reflexivity.
Qed.

Lemma demo_round_displayed (env : Main.round_env) (t : spec_float)
    (s : st Main.BLEenvironment) :
  round_reading env = Ret t ->
  Main.oled_ok env = true ->
  Main.demo_round env s =
  (Ret tt,
   (fst s,
    World (<[Main._temp_handle (fst s) := binary32_le t]> (gatts (snd s)))
          (log (snd s) ++
             ([ConsolePrint [PyFormat "Temperature mesuree : {:.2f} °C" t];
               OledFill 0;
               OledText (PyStr "Temperature:") 0 0;
               OledText (PyFormat "{:.2f} C" t) 0 20;
               OledShow;
               GattsWrite (Main._temp_handle (fst s)) (binary32_le t)]
              ++ map (fun h => GattsNotify h (Main._temp_handle (fst s)) (binary32_le t))
                   (elements (Main._connections (fst s))))
             ++ [SleepMs 5000]))).
Proof.
  intros Ht Holed. destruct s as [self [g l]].
  unfold Main.demo_round. unfold try_except, bind.
  rewrite read_mcp9808_reading, Ht.
  unfold Main.display_temperature_oled. rewrite Holed.
  unfold print, emit, ret, raise, bind. cbn [fst snd gatts log].
  rewrite set_temp_run. unfold sleep_ms, emit. cbn [fst snd gatts log].
  rewrite <- !app_assoc. cbn [app].
  assert (Hmap : forall hs : list Z,
            flat_map (env_fanout true false (Main._temp_handle self) (binary32_le t)) hs =
            map (fun h => GattsNotify h (Main._temp_handle self) (binary32_le t)) hs).
  { induction hs as [|h hs IH]; [reflexivity|]. cbn. rewrite IH. reflexivity. }
  rewrite Hmap. reflexivity.
Qed.

Lemma filter_notify_map (th : Z) (d : bytes) (hs : list Z) :
  List.filter is_notify (map (fun h => GattsNotify h th d) hs) =
  map (fun h => GattsNotify h th d) hs.
Proof. induction hs as [|h hs IH]; [reflexivity|]. cbn. rewrite IH. reflexivity. Qed.

Lemma filter_other_map (p : effect -> bool) (th : Z) (d : bytes) (hs : list Z) :
  (forall h, p (GattsNotify h th d) = false) ->
  List.filter p (map (fun h => GattsNotify h th d) hs) = [].
Proof.
  intros Hp. induction hs as [|h hs IH]; [reflexivity|]. cbn. rewrite Hp. exact IH.
Qed.

(** X4: a round whose sensor read succeeds but whose display refresh
    fails publishes nothing: the measurement is printed and drawn into
    the frame buffer, the failure is reported, and the round sleeps; the
    temperature storage keeps its previous value and nobody is notified. *)
Theorem display_failure_drops_measurement (env : Main.round_env) (d0 d1 : byte)
    (rest : bytes) (s : st Main.BLEenvironment) :
  Main.i2c_data env = Ret (d0 :: d1 :: rest) ->
  Main.oled_ok env = false ->
  fst (Main.demo_round env s) = Ret tt
  /\ gatts (snd (snd (Main.demo_round env s))) = gatts (snd s)
  /\ List.filter is_stack_call (effects_of (Main.demo_round env) s) = []
  /\ exists t,
       fst (Main.read_mcp9808_temperature (Main.i2c_data env) s) = Ret t /\
       effects_of (Main.demo_round env) s =
         [ConsolePrint [PyFormat "Temperature mesuree : {:.2f} °C" t];
          OledFill 0;
          OledText (PyStr "Temperature:") 0 0;
          OledText (PyFormat "{:.2f} C" t) 0 20;
          ConsolePrint [PyStr "Erreur lors de la lecture de la temperature :";
                        PyExn OSError];
          SleepMs 5000].
Proof.
  intros Hdata Holed.
  assert (Ht : round_reading env = Ret (mcp9808_celsius d0 d1)).
  { unfold round_reading. rewrite Hdata. reflexivity. }
  pose proof (demo_round_display_failed env _ s Ht Holed) as Hrun.
  pose proof (effects_of_appended _ _ _ _ _ _ Hrun) as Heff.
  split; [rewrite Hrun; reflexivity|]. split; [rewrite Hrun; reflexivity|].
  split; [rewrite Heff; reflexivity|].
  exists (mcp9808_celsius d0 d1). split.
  - rewrite read_mcp9808_reading, Ht. reflexivity.
  - exact Heff.
Qed.

Lemma display_failure_drops_measurement_witness :
  let env := Main.RoundEnv (Ret [x01; x58]) false in
  let s := env_state {[7]} in
  fst (Main.demo_round env s) = Ret tt
  /\ gatts (snd (snd (Main.demo_round env s))) = gatts (snd s)
  /\ List.filter is_stack_call (effects_of (Main.demo_round env) s) = []
  /\ exists t,
       fst (Main.read_mcp9808_temperature (Main.i2c_data env) s) = Ret t /\
       effects_of (Main.demo_round env) s =
         [ConsolePrint [PyFormat "Temperature mesuree : {:.2f} °C" t];
          OledFill 0;
          OledText (PyStr "Temperature:") 0 0;
          OledText (PyFormat "{:.2f} C" t) 0 20;
          ConsolePrint [PyStr "Erreur lors de la lecture de la temperature :";
                        PyExn OSError];
          SleepMs 5000].
Proof.
  apply (display_failure_drops_measurement (Main.RoundEnv (Ret [x01; x58]) false)
           x01 x58 [] (env_state {[7]})); reflexivity.
Defined.



Lemma demo_round_shape (env : Main.round_env) (s : st Main.BLEenvironment) :
  exists g es,
    Main.demo_round env s =
      (Ret tt, (fst s, World g (log (snd s) ++ es ++ [SleepMs 5000])))
    /\ List.filter is_sleep es = [].
Proof.
  destruct (round_reading env) as [t|e] eqn:Hr.
  - destruct (Main.oled_ok env) eqn:Ho.
    + eexists _, _. split; [apply (demo_round_displayed env t s Hr Ho)|].
      rewrite List.filter_app. cbn. apply filter_other_map. reflexivity.
    + eexists _, _. split; [apply (demo_round_display_failed env t s Hr Ho)|].
      reflexivity.
  - eexists _, _. split; [apply (demo_round_no_reading env e s Hr)|]. reflexivity.
Qed.

Lemma demo_loop_shape (envs : list Main.round_env) (s : st Main.BLEenvironment) :
  exists g es,
    Main.demo_loop envs s = (Ret tt, (fst s, World g (log (snd s) ++ es)))
    /\ List.filter is_sleep es = repeat (SleepMs 5000) (length envs).
Proof.
  revert s. induction envs as [|env envs IH]; intros s.
  - exists (gatts (snd s)), []. split; [|reflexivity].
    destruct s as [self [g l]]. cbn. rewrite app_nil_r. reflexivity.
  - destruct (demo_round_shape env s) as (g1 & es1 & Hround & Hes1).
    destruct (IH (fst s, World g1 (log (snd s) ++ es1 ++ [SleepMs 5000])))
      as (g2 & es2 & Hloop & Hes2).
    exists g2, ((es1 ++ [SleepMs 5000]) ++ es2). split.
    + cbn [Main.demo_loop]. unfold bind. rewrite Hround, Hloop.
      cbn [fst snd log]. rewrite <- !app_assoc. reflexivity.
    + rewrite !List.filter_app, Hes1, Hes2. reflexivity.
Qed.


(** X6: no answer of the hardware stops the loop: whatever the sensor and
    the display do in each round, the rounds all complete without an
    exception, every round ends with one sleep of 5000 ms, and the
    object's fields (handles, registry, payload) are as before. *)
Theorem loop_never_raises (envs : list Main.round_env) (s : st Main.BLEenvironment) :
  fst (Main.demo_loop envs s) = Ret tt
  /\ fst (snd (Main.demo_loop envs s)) = fst s
  /\ List.filter is_sleep (effects_of (Main.demo_loop envs) s) =
     repeat (SleepMs 5000) (length envs).
Proof.
  destruct (demo_loop_shape envs s) as (g & es & Hloop & Hes).
  rewrite (effects_of_appended _ _ _ _ _ _ Hloop), Hloop. auto.
Qed.

(* ===================================================================== *)
(** * Start-up of [demo]                                                   *)
(* ===================================================================== *)

Lemma demo_sensor_missing handles payload byte_mac (scan : list Z) oled_present envs
    (s : st Main.BLEenvironment) :
  0x18 ∉ scan ->
  Main.demo handles payload byte_mac scan oled_present envs s =
  (Ret tt,
   (Main.mkBLEenvironment (fst handles) (snd handles) ∅ payload,
    World (gatts (snd s))
          (log (snd s) ++
             [ConsolePrint [PyStr "Peripherique BLE initialise"];
              BleActive true;
              GapAdvertise Main.default_interval_us payload true;
              ConsolePrint [PyStr "Adresse MAC : {}"; PyStr (hexlify byte_mac)];
              ConsolePrint [PyStr "Ecran OLED initialise"];
              ConsolePrint [PyStr "Erreur lors de l'initialisation du MCP9808 :";
                            PyExn Exception]]))).
Proof.
  intros Hscan. destruct s as [self [g l]].
  unfold Main.demo, Main.__init__, Main._advertise, Main.init_mcp9808.
  rewrite bool_decide_eq_false_2 by exact Hscan.
  mrun. rewrite <- !app_assoc. reflexivity.
Qed.

Lemma demo_display_missing handles payload byte_mac (scan : list Z) envs
    (s : st Main.BLEenvironment) :
  0x18 ∈ scan ->
  Main.demo handles payload byte_mac scan false envs s =
  (Ret tt,
   (Main.mkBLEenvironment (fst handles) (snd handles) ∅ payload,
    World (gatts (snd s))
          (log (snd s) ++
             [ConsolePrint [PyStr "Peripherique BLE initialise"];
              BleActive true;
              GapAdvertise Main.default_interval_us payload true;
              ConsolePrint [PyStr "Adresse MAC : {}"; PyStr (hexlify byte_mac)];
              ConsolePrint [PyStr "Ecran OLED initialise"];
              I2cWriteMem 0x18 0x01 [x00; x00];
              ConsolePrint [PyStr "Erreur lors de l'initialisation du MCP9808 :";
                            PyExn OSError]]))).
Proof.
  intros Hscan. destruct s as [self [g l]].
  unfold Main.demo, Main.__init__, Main._advertise, Main.init_mcp9808,
    Main.init_oled_display.
  rewrite bool_decide_eq_true_2 by exact Hscan.
  mrun. rewrite <- !app_assoc. reflexivity.
Qed.


(** X7: when the MCP9808 does not answer at address 0x18, or the display
    cannot be initialised, [demo] returns without running a single round
    of the loop: whatever the hardware would answer later plays no part,
    nothing is ever written to the temperature storage, and the
    peripheral is left advertising (one [gap_advertise], connectable,
    every 500000 us) with an empty registry. *)
Theorem startup_failure_leaves_advertising handles payload byte_mac (scan : list Z)
    (oled_present : bool) (envs : list Main.round_env) (s : st Main.BLEenvironment) :
  (0x18 ∉ scan) \/ (oled_present = false) ->
  let run := Main.demo handles payload byte_mac scan oled_present in
  fst (run envs s) = Ret tt
  /\ run envs s = run [] s
  /\ List.filter is_advertise (effects_of (run envs) s) = [GapAdvertise 500000 payload true]
  /\ List.filter is_storage_write (effects_of (run envs) s) = []
  /\ List.filter is_sleep (effects_of (run envs) s) = []
  /\ Main._connections (fst (snd (run envs s))) = ∅
  /\ gatts (snd (snd (run envs s))) = gatts (snd s).
Proof.
  intros H run. unfold run.
  destruct (decide (0x18 ∈ scan)) as [Hin|Hn].
  - destruct H as [H | ->]; [contradiction|].
    pose proof (demo_display_missing handles payload byte_mac scan envs s Hin) as Hrun.
    pose proof (demo_display_missing handles payload byte_mac scan [] s Hin) as Hnil.
    rewrite (effects_of_appended _ _ _ _ _ _ Hrun), Hrun, Hnil.
    repeat split; reflexivity.
  - pose proof (demo_sensor_missing handles payload byte_mac scan oled_present envs s Hn)
      as Hrun.
    pose proof (demo_sensor_missing handles payload byte_mac scan oled_present [] s Hn)
      as Hnil.
    rewrite (effects_of_appended _ _ _ _ _ _ Hrun), Hrun, Hnil.
    repeat split; reflexivity.
Qed.

Lemma startup_failure_leaves_advertising_witness :
  let run := Main.demo (1, 2) [x02; x01; x06] [] [0x3C] true in
  let envs := [Main.RoundEnv (Ret [x01; x58]) true] in
  let s := env_state ∅ in
  fst (run envs s) = Ret tt
  /\ run envs s = run [] s
  /\ List.filter is_advertise (effects_of (run envs) s) =
     [GapAdvertise 500000 [x02; x01; x06] true]
  /\ List.filter is_storage_write (effects_of (run envs) s) = []
  /\ List.filter is_sleep (effects_of (run envs) s) = []
  /\ Main._connections (fst (snd (run envs s))) = ∅
  /\ gatts (snd (snd (run envs s))) = gatts (snd s).
Proof.
  apply (startup_failure_leaves_advertising (1, 2) [x02; x01; x06] [] [0x3C] true
           [Main.RoundEnv (Ret [x01; x58]) true] (env_state ∅)).
  left. intros Hin. apply list_elem_of_singleton in Hin. discriminate Hin.
Defined.



(* ===================================================================== *)
(** * Connection events in detail                                          *)
(* ===================================================================== *)

Lemma size_remove_member (c : gset Z) (h : Z) :
  h ∈ c -> (size (c ∖ {[h]}) + 1 = size c)%nat.
Proof.
  intros Hin.
  assert (Hsub : ({[h]} : gset Z) ⊆ c) by (apply singleton_subseteq_l, Hin).
  pose proof (size_difference c {[h]} Hsub) as Hd.
  rewrite size_singleton in Hd.
  assert (Hne : size c <> 0%nat).
  { apply size_non_empty_iff. intros Hemp.
    apply (not_elem_of_empty (C := gset Z) h). rewrite <- Hemp. exact Hin. }
  lia.
Qed.

(** X9: the disconnect of a registered handle returns normally, removes
    that handle and no other (the registry shrinks by one), leaves the
    GATT storage alone and restarts advertising once, connectable, every
    500000 us, with the object's payload, whether or not other centrals
    remain connected; [BLESensor] also switches the blue LED off. *)
Theorem member_disconnect_rearms :
  (forall (s : st BleSensor.BLESensor) h addr_type addr,
     h ∈ BleSensor._connections (fst s) ->
     let call := BleSensor._irq BleSensor._IRQ_CENTRAL_DISCONNECT (Tuple3 h addr_type addr) in
     fst (call s) = Ret tt
     /\ BleSensor._connections (fst (snd (call s))) = BleSensor._connections (fst s) ∖ {[h]}
     /\ (size (BleSensor._connections (fst (snd (call s)))) + 1
           = size (BleSensor._connections (fst s)))%nat
     /\ gatts (snd (snd (call s))) = gatts (snd s)
     /\ effects_of call s =
          [GapAdvertise 500000 (BleSensor._payload (fst s)) true;
           LedOff BleSensor.led_bleu;
           ConsolePrint [PyStr "Deconnecte du central"]])
  /\ (forall (s : st Main.BLEenvironment) h addr_type addr,
     h ∈ Main._connections (fst s) ->
     let call := Main._irq Main._IRQ_CENTRAL_DISCONNECT (Tuple3 h addr_type addr) in
     fst (call s) = Ret tt
     /\ Main._connections (fst (snd (call s))) = Main._connections (fst s) ∖ {[h]}
     /\ (size (Main._connections (fst (snd (call s)))) + 1
           = size (Main._connections (fst s)))%nat
     /\ gatts (snd (snd (call s))) = gatts (snd s)
     /\ effects_of call s =
          [ConsolePrint [PyStr "Deconnecte"];
           GapAdvertise 500000 (Main._payload (fst s)) true]).
Proof.
  split; intros s h addr_type addr Hin call; unfold call.
  - pose proof (irq_disconnect_member s h addr_type addr Hin) as Hrun.
    rewrite (effects_of_appended _ _ _ _ _ _ Hrun), Hrun. cbn [fst snd gatts].
    repeat split; try reflexivity. apply (size_remove_member _ _ Hin).
  - pose proof (env_irq_disconnect_member s h addr_type addr Hin) as Hrun.
    rewrite (effects_of_appended _ _ _ _ _ _ Hrun), Hrun. cbn [fst snd gatts].
    repeat split; try reflexivity. apply (size_remove_member _ _ Hin).
Qed.

Lemma member_disconnect_rearms_witness :
  let s := sensor_state {[7; 9]} [] in
  let call := BleSensor._irq BleSensor._IRQ_CENTRAL_DISCONNECT (Tuple3 7 0 []) in
  fst (call s) = Ret tt
  /\ BleSensor._connections (fst (snd (call s))) = BleSensor._connections (fst s) ∖ {[7]}
  /\ (size (BleSensor._connections (fst (snd (call s)))) + 1
        = size (BleSensor._connections (fst s)))%nat
  /\ gatts (snd (snd (call s))) = gatts (snd s)
  /\ effects_of call s =
       [GapAdvertise 500000 (BleSensor._payload (fst s)) true;
        LedOff BleSensor.led_bleu;
        ConsolePrint [PyStr "Deconnecte du central"]].
Proof.
  apply (proj1 member_disconnect_rearms (sensor_state {[7; 9]} []) 7 0 []).
  cbn. apply elem_of_union_l, elem_of_singleton. reflexivity.
Defined.

(** X10: a connect followed by the disconnect of the same handle gives
    back the registry there was before, when the handle was not in it;
    nothing else of the object changes.  When the handle was already
    registered the pair removes it: connects are not counted. *)
Theorem connect_disconnect_round_trip :
  (forall (s : st BleSensor.BLESensor) h t1 a1 t2 a2,
     let s' := sensor_replay [CentralConnect h t1 a1; CentralDisconnect h t2 a2] s in
     BleSensor._connections (fst s') = BleSensor._connections (fst s) ∖ {[h]}
     /\ (h ∉ BleSensor._connections (fst s) -> fst s' = fst s)
     /\ gatts (snd s') = gatts (snd s))
  /\ (forall (s : st Main.BLEenvironment) h t1 a1 t2 a2,
     let s' := env_replay [CentralConnect h t1 a1; CentralDisconnect h t2 a2] s in
     Main._connections (fst s') = Main._connections (fst s) ∖ {[h]}
     /\ (h ∉ Main._connections (fst s) -> fst s' = fst s)
     /\ gatts (snd s') = gatts (snd s)).
Proof.
  assert (Hset : forall (c : gset Z) h, ({[h]} ∪ c) ∖ {[h]} = c ∖ {[h]}).
  { intros c h. apply set_eq. intros x.
    rewrite !elem_of_difference, elem_of_union. tauto. }
  split; intros s h t1 a1 t2 a2 s'.
  - assert (Hrun : s' =
              (BleSensor.set_connections (fun _ => BleSensor._connections (fst s) ∖ {[h]}) (fst s),
               World (gatts (snd s))
                 (log (snd s) ++
                    [ConsolePrint [PyStr "Connecte à un central"]; LedOn BleSensor.led_bleu;
                     GapAdvertise BleSensor.default_interval_us (BleSensor._payload (fst s)) true;
                     LedOff BleSensor.led_bleu;
                     ConsolePrint [PyStr "Deconnecte du central"]]))).
    { unfold s', sensor_replay, replay, CentralConnect, CentralDisconnect.
      cbn [fold_left run_op].
      change 1 with BleSensor._IRQ_CENTRAL_CONNECT.
      change 2 with BleSensor._IRQ_CENTRAL_DISCONNECT.
      rewrite irq_connect. cbn [snd].
      rewrite irq_disconnect_member
        by (cbn; apply elem_of_union_l, elem_of_singleton; reflexivity).
      cbn [snd fst gatts log]. destruct s as [[th sw c p] [g l]].
      cbn. unfold BleSensor.set_connections. cbn. rewrite Hset, <- app_assoc. reflexivity. }
    rewrite Hrun. cbn [fst snd gatts]. split; [reflexivity|]. split; [|reflexivity].
    intros Hn. destruct s as [[th sw c p] [g l]]. cbn in *.
    unfold BleSensor.set_connections. cbn. rewrite difference_absent by exact Hn.
    reflexivity.
  - assert (Hrun : s' =
              (Main.set_connections (fun _ => Main._connections (fst s) ∖ {[h]}) (fst s),
               World (gatts (snd s))
                 (log (snd s) ++
                    [ConsolePrint [PyStr "Connecte"];
                     ConsolePrint [PyStr "Deconnecte"];
                     GapAdvertise Main.default_interval_us (Main._payload (fst s)) true]))).
    { unfold s', env_replay, replay, CentralConnect, CentralDisconnect.
      cbn [fold_left run_op].
      change 1 with Main._IRQ_CENTRAL_CONNECT.
      change 2 with Main._IRQ_CENTRAL_DISCONNECT.
      rewrite env_irq_connect. cbn [snd].
      rewrite env_irq_disconnect_member
        by (cbn; apply elem_of_union_l, elem_of_singleton; reflexivity).
      cbn [snd fst gatts log]. destruct s as [[th sw c p] [g l]].
      cbn. unfold Main.set_connections. cbn. rewrite Hset, <- app_assoc. reflexivity. }
    rewrite Hrun. cbn [fst snd gatts]. split; [reflexivity|]. split; [|reflexivity].
    intros Hn. destruct s as [[th sw c p] [g l]]. cbn in *.
    unfold Main.set_connections. cbn. rewrite difference_absent by exact Hn.
    reflexivity.
Qed.

Lemma connect_disconnect_round_trip_witness :
  let s := sensor_state {[9]} [] in
  let s' := sensor_replay [CentralConnect 7 0 []; CentralDisconnect 7 0 []] s in
  BleSensor._connections (fst s') = BleSensor._connections (fst s) ∖ {[7]}
  /\ (7 ∉ BleSensor._connections (fst s) -> fst s' = fst s)
  /\ gatts (snd s') = gatts (snd s).
Proof.
  apply (proj1 connect_disconnect_round_trip (sensor_state {[9]} []) 7 0 [] 0 []).
Defined.

(* ===================================================================== *)
(** * Construction of a [BLESensor]                                        *)
(* ===================================================================== *)




(* ===================================================================== *)
(** * Fan-out of a publish                                                 *)
(* ===================================================================== *)






(* ===================================================================== *)
(** * What the callbacks leave alone                                       *)
(* ===================================================================== *)

Lemma sensor_set_connections_id (self : BleSensor.BLESensor) :
  BleSensor.set_connections (fun _ => BleSensor._connections self) self = self.
Proof. destruct self. reflexivity. Qed.

Lemma env_set_connections_id (self : Main.BLEenvironment) :
  Main.set_connections (fun _ => Main._connections self) self = self.
Proof. destruct self. reflexivity. Qed.

Lemma sensor_irq_unknown (event : Z) (data : irq_data) (s : st BleSensor.BLESensor) :
  event <> 1 -> event <> 2 -> event <> 3 ->
  BleSensor._irq event data s = (Ret tt, s).
Proof.
  intros H1 H2 H3.
  unfold BleSensor._irq, BleSensor._IRQ_CENTRAL_CONNECT,
    BleSensor._IRQ_CENTRAL_DISCONNECT, BleSensor._IRQ_GATTS_WRITE.
  apply Z.eqb_neq in H1, H2, H3. rewrite H1, H2, H3. reflexivity.
Qed.

Lemma env_irq_unknown (event : Z) (data : irq_data) (s : st Main.BLEenvironment) :
  event <> 1 -> event <> 2 ->
  Main._irq event data s = (Ret tt, s).
Proof.
  intros H1 H2.
  unfold Main._irq, Main._IRQ_CENTRAL_CONNECT, Main._IRQ_CENTRAL_DISCONNECT.
  apply Z.eqb_neq in H1, H2. rewrite H1, H2. reflexivity.
Qed.

(** The object after an event: only the registry may differ. *)
Lemma sensor_irq_self (event : Z) (data : irq_data) (s : st BleSensor.BLESensor) :
  fst (snd (BleSensor._irq event data s)) =
  BleSensor.set_connections
    (fun _ => registry_step event data (BleSensor._connections (fst s))) (fst s).
Proof.
  destruct (Z.eq_dec event 1) as [->|E1].
  { destruct data as [h t a|ch vh].
    - change 1 with BleSensor._IRQ_CENTRAL_CONNECT at 1. rewrite irq_connect. reflexivity.
    - cbn. symmetry. apply sensor_set_connections_id. }
  destruct (Z.eq_dec event 2) as [->|E2].
  { destruct data as [h t a|ch vh]; [|cbn; symmetry; apply sensor_set_connections_id].
    change 2 with BleSensor._IRQ_CENTRAL_DISCONNECT at 1.
    destruct (decide (h ∈ BleSensor._connections (fst s))) as [Hin|Hn].
    - rewrite irq_disconnect_member by exact Hin. reflexivity.
    - rewrite irq_disconnect_absent by exact Hn. cbn.
      rewrite difference_absent by exact Hn. symmetry. apply sensor_set_connections_id. }
  destruct (Z.eq_dec event 3) as [->|E3].
  { destruct data as [h t a|ch vh]; [cbn; symmetry; apply sensor_set_connections_id|].
    change 3 with BleSensor._IRQ_GATTS_WRITE at 1. cbn [registry_step].
    rewrite sensor_set_connections_id.
    destruct (decide (ch ∈ BleSensor._connections (fst s))) as [Hin|Hn].
    - destruct (Z.eq_dec vh (BleSensor._switch_handle (fst s))) as [Hv|Hv].
      + assert (Hacc : accepted s ch vh) by (split; assumption).
        destruct (stored (snd s) vh) as [|b rest] eqn:Hs.
        * rewrite (irq_write_empty _ _ _ Hacc Hs). reflexivity.
        * rewrite (irq_write_accepted _ _ _ _ _ Hacc Hs). reflexivity.
      + rewrite irq_write_ignored; [reflexivity|]. intros [_ Hv']. contradiction.
    - rewrite irq_write_ignored; [reflexivity|]. intros [Hc _]. contradiction. }
  rewrite sensor_irq_unknown by assumption. cbn [snd fst].
  assert (Hstep : registry_step event data (BleSensor._connections (fst s)) =
                  BleSensor._connections (fst s)).
  { unfold registry_step. apply Z.eqb_neq in E1, E2. rewrite E1, E2.
    destruct data; reflexivity. }
  rewrite Hstep. symmetry. apply sensor_set_connections_id.
Qed.

Lemma env_irq_self (event : Z) (data : irq_data) (s : st Main.BLEenvironment) :
  fst (snd (Main._irq event data s)) =
  Main.set_connections
    (fun _ => registry_step event data (Main._connections (fst s))) (fst s)
  /\ gatts (snd (snd (Main._irq event data s))) = gatts (snd s).
Proof.
  destruct (Z.eq_dec event 1) as [->|E1].
  { destruct data as [h t a|ch vh].
    - change 1 with Main._IRQ_CENTRAL_CONNECT at 1 3. rewrite env_irq_connect.
      split; reflexivity.
    - cbn. split; [symmetry; apply env_set_connections_id|reflexivity]. }
  destruct (Z.eq_dec event 2) as [->|E2].
  { destruct data as [h t a|ch vh];
      [|cbn; split; [symmetry; apply env_set_connections_id|reflexivity]].
    change 2 with Main._IRQ_CENTRAL_DISCONNECT at 1 3.
    destruct (decide (h ∈ Main._connections (fst s))) as [Hin|Hn].
    - rewrite env_irq_disconnect_member by exact Hin. split; reflexivity.
    - rewrite env_irq_disconnect_absent by exact Hn. cbn.
      rewrite difference_absent by exact Hn.
      split; [symmetry; apply env_set_connections_id|reflexivity]. }
  rewrite env_irq_unknown by assumption. cbn [snd fst]. split; [|reflexivity].
  assert (Hstep : registry_step event data (Main._connections (fst s)) =
                  Main._connections (fst s)).
  { unfold registry_step. apply Z.eqb_neq in E1, E2. rewrite E1, E2.
    destruct data; reflexivity. }
  rewrite Hstep. symmetry. apply env_set_connections_id.
Qed.

(** The storage after an event: only the switch value may differ. *)
Lemma sensor_irq_gatts (event : Z) (data : irq_data) (s : st BleSensor.BLESensor) (vh : Z) :
  vh <> BleSensor._switch_handle (fst s) ->
  gatts (snd (snd (BleSensor._irq event data s))) !! vh = gatts (snd s) !! vh.
Proof.
  intros Hvh.
  destruct (Z.eq_dec event 1) as [->|E1].
  { destruct data as [h t a|ch vh'].
    - change 1 with BleSensor._IRQ_CENTRAL_CONNECT. rewrite irq_connect. reflexivity.
    - reflexivity. }
  destruct (Z.eq_dec event 2) as [->|E2].
  { destruct data as [h t a|ch vh']; [|reflexivity].
    change 2 with BleSensor._IRQ_CENTRAL_DISCONNECT.
    destruct (decide (h ∈ BleSensor._connections (fst s))) as [Hin|Hn].
    - rewrite irq_disconnect_member by exact Hin. reflexivity.
    - rewrite irq_disconnect_absent by exact Hn. reflexivity. }
  destruct (Z.eq_dec event 3) as [->|E3].
  { destruct data as [h t a|ch vh']; [reflexivity|].
    change 3 with BleSensor._IRQ_GATTS_WRITE.
    destruct (decide (ch ∈ BleSensor._connections (fst s))) as [Hin|Hn].
    - destruct (Z.eq_dec vh' (BleSensor._switch_handle (fst s))) as [Hv|Hv].
      + assert (Hacc : accepted s ch vh') by (split; assumption).
        destruct (stored (snd s) vh') as [|b rest] eqn:Hs.
        * rewrite (irq_write_empty _ _ _ Hacc Hs). reflexivity.
        * rewrite (irq_write_accepted _ _ _ _ _ Hacc Hs). cbn [snd gatts].
          apply lookup_insert_ne. congruence.
      + rewrite irq_write_ignored; [reflexivity|]. intros [_ Hv']. contradiction.
    - rewrite irq_write_ignored; [reflexivity|]. intros [Hc _]. contradiction. }
  rewrite sensor_irq_unknown by assumption. reflexivity.
Qed.

(** X13: events that neither callback knows are ignored altogether: for
    [BLESensor] every event code other than 1, 2 and 3, and for
    [BLEenvironment] every code other than 1 and 2, which includes the
    write event (3) and the indication acknowledgement
    (_IRQ_GATTS_INDICATE_DONE = 20), returns normally with the state
    untouched and no call made, whatever the data tuple. *)
Theorem unknown_events_ignored :
  (forall (event : Z) (data : irq_data) (s : st BleSensor.BLESensor),
     event <> 1 -> event <> 2 -> event <> 3 ->
     BleSensor._irq event data s = (Ret tt, s))
  /\ (forall (event : Z) (data : irq_data) (s : st Main.BLEenvironment),
     event <> 1 -> event <> 2 ->
     Main._irq event data s = (Ret tt, s))
  /\ (forall (data : irq_data) (s : st Main.BLEenvironment),
     Main._irq Main._IRQ_GATTS_INDICATE_DONE data s = (Ret tt, s)
     /\ Main._irq IRQ_GATTS_WRITE data s = (Ret tt, s))
  /\ (forall (event : Z) (data : irq_data) (s : st Main.BLEenvironment),
     gatts (snd (snd (Main._irq event data s))) = gatts (snd s)
     /\ List.filter is_notify (effects_of (Main._irq event data) s) = []
     /\ List.filter is_indicate (effects_of (Main._irq event data) s) = []).
Proof.
  split; [exact sensor_irq_unknown|]. split; [exact env_irq_unknown|]. split.
  - intros data s. split; apply env_irq_unknown; discriminate.
  - intros event data s. split; [apply env_irq_self|].
    destruct (Z.eq_dec event 1) as [->|E1].
    { destruct data as [h t a|ch vh].
      - change 1 with Main._IRQ_CENTRAL_CONNECT.
        rewrite (effects_of_appended _ _ _ _ _ _ (env_irq_connect s h t a)).
        split; reflexivity.
      - rewrite (effects_of_unchanged _ s (Raise ValueError)) by reflexivity.
        split; reflexivity. }
    destruct (Z.eq_dec event 2) as [->|E2].
    { destruct data as [h t a|ch vh].
      - change 2 with Main._IRQ_CENTRAL_DISCONNECT.
        destruct (decide (h ∈ Main._connections (fst s))) as [Hin|Hn].
        + rewrite (effects_of_appended _ _ _ _ _ _ (env_irq_disconnect_member s h t a Hin)).
          split; reflexivity.
        + rewrite (effects_of_unchanged _ _ _ (env_irq_disconnect_absent s h t a Hn)).
          split; reflexivity.
      - rewrite (effects_of_unchanged _ s (Raise ValueError)) by reflexivity.
        split; reflexivity. }
    rewrite (effects_of_unchanged _ _ _ (env_irq_unknown event data s E1 E2)).
    split; reflexivity.
Qed.

Lemma unknown_events_ignored_witness :
  BleSensor._irq 20 (Tuple3 7 2 []) (sensor_state {[7]} [x01])
    = (Ret tt, sensor_state {[7]} [x01])
  /\ Main._irq 3 (Tuple2 7 1) (env_state {[7]}) = (Ret tt, env_state {[7]}).
Proof.
  split.
  - apply (proj1 unknown_events_ignored 20 (Tuple3 7 2 []) (sensor_state {[7]} [x01]));
      discriminate.
  - apply (proj1 (proj2 unknown_events_ignored) 3 (Tuple2 7 1) (env_state {[7]}));
      discriminate.
Defined.

(* ===================================================================== *)
(** * Invariants of a replay                                               *)
(* ===================================================================== *)

Lemma sensor_run_op_self (s : st BleSensor.BLESensor) (o : sensor_op) :
  fst (run_op BleSensor._irq
         (fun p => BleSensor.set_data_temperature (fst p) (snd p)) s o) =
  BleSensor.set_connections
    (fun _ => registry_after (BleSensor._connections (fst s)) o) (fst s).
Proof.
  destruct o as [event data|ch vh payload|[v notify]]; cbn [run_op registry_after].
  - apply sensor_irq_self.
  - rewrite sensor_irq_self. reflexivity.
  - cbn [fst snd]. rewrite set_data_temperature_run. cbn [fst snd].
    symmetry. apply sensor_set_connections_id.
Qed.

Lemma env_run_op_self (s : st Main.BLEenvironment) (o : env_op) :
  fst (run_op Main._irq
         (fun p => Main.set_temp (fst (fst p)) (snd (fst p)) (snd p)) s o) =
  Main.set_connections
    (fun _ => registry_after (Main._connections (fst s)) o) (fst s).
Proof.
  destruct o as [event data|ch vh payload|[[v notify] indicate]];
    cbn [run_op registry_after].
  - apply env_irq_self.
  - rewrite (proj1 (env_irq_self _ _ _)). reflexivity.
  - cbn [fst snd]. rewrite set_temp_run. cbn [fst snd].
    symmetry. apply env_set_connections_id.
Qed.

Lemma sensor_replay_self (ops : list sensor_op) (s : st BleSensor.BLESensor) :
  fst (sensor_replay ops s) =
  BleSensor.set_connections
    (fun _ => fold_left registry_after ops (BleSensor._connections (fst s))) (fst s).
Proof.
  revert s. induction ops as [|o ops IH]; intros s.
  - cbn. symmetry. apply sensor_set_connections_id.
  - unfold sensor_replay, replay in *. cbn [fold_left]. rewrite IH.
    rewrite sensor_run_op_self. reflexivity.
Qed.

Lemma env_replay_self (ops : list env_op) (s : st Main.BLEenvironment) :
  fst (env_replay ops s) =
  Main.set_connections
    (fun _ => fold_left registry_after ops (Main._connections (fst s))) (fst s).
Proof.
  revert s. induction ops as [|o ops IH]; intros s.
  - cbn. symmetry. apply env_set_connections_id.
  - unfold env_replay, replay in *. cbn [fold_left]. rewrite IH.
    rewrite env_run_op_self. reflexivity.
Qed.

(** X14: no sequence of events, central writes and publishes ever changes
    the characteristic handles or the advertising payload of an object;
    the registry is the only field that moves. *)
Theorem replay_keeps_handles_and_payload :
  (forall (ops : list sensor_op) (s : st BleSensor.BLESensor),
     BleSensor._temperature_handle (fst (sensor_replay ops s))
       = BleSensor._temperature_handle (fst s)
     /\ BleSensor._switch_handle (fst (sensor_replay ops s))
       = BleSensor._switch_handle (fst s)
     /\ BleSensor._payload (fst (sensor_replay ops s)) = BleSensor._payload (fst s))
  /\ (forall (ops : list env_op) (s : st Main.BLEenvironment),
     Main._temp_handle (fst (env_replay ops s)) = Main._temp_handle (fst s)
     /\ Main._humi_handle (fst (env_replay ops s)) = Main._humi_handle (fst s)
     /\ Main._payload (fst (env_replay ops s)) = Main._payload (fst s)).
Proof.
  split; intros ops s.
  - rewrite sensor_replay_self. repeat split; reflexivity.
  - rewrite env_replay_self. repeat split; reflexivity.
Qed.

Lemma sensor_run_op_gatts (s : st BleSensor.BLESensor) (o : sensor_op) (th : Z) :
  th <> BleSensor._switch_handle (fst s) ->
  leaves_value th o ->
  gatts (snd (run_op BleSensor._irq
                (fun p => BleSensor.set_data_temperature (fst p) (snd p)) s o)) !! th =
  gatts (snd s) !! th.
Proof.
  intros Hth Ho. destruct o as [event data|ch vh payload|p]; cbn [run_op].
  - apply sensor_irq_gatts, Hth.
  - cbn in Ho. rewrite sensor_irq_gatts by exact Hth. cbn.
    apply lookup_insert_ne. exact Ho.
  - destruct Ho.
Qed.

Lemma env_run_op_gatts (s : st Main.BLEenvironment) (o : env_op) (th : Z) :
  leaves_value th o ->
  gatts (snd (run_op Main._irq
                (fun p => Main.set_temp (fst (fst p)) (snd (fst p)) (snd p)) s o)) !! th =
  gatts (snd s) !! th.
Proof.
  intros Ho. destruct o as [event data|ch vh payload|p]; cbn [run_op].
  - rewrite (proj2 (env_irq_self _ _ _)). reflexivity.
  - cbn in Ho. rewrite (proj2 (env_irq_self _ _ _)). cbn.
    apply lookup_insert_ne. exact Ho.
  - destruct Ho.
Qed.

Lemma sensor_replay_gatts (ops : list sensor_op) (s : st BleSensor.BLESensor) (th : Z) :
  th <> BleSensor._switch_handle (fst s) ->
  Forall (leaves_value th) ops ->
  gatts (snd (sensor_replay ops s)) !! th = gatts (snd s) !! th.
Proof.
  intros Hth Hops. revert s Hth.
  induction Hops as [|o ops Ho Hops IH]; intros s Hth; [reflexivity|].
  unfold sensor_replay, replay in *. cbn [fold_left]. rewrite IH.
  - apply sensor_run_op_gatts; assumption.
  - rewrite sensor_run_op_self. exact Hth.
Qed.

Lemma env_replay_gatts (ops : list env_op) (s : st Main.BLEenvironment) (th : Z) :
  Forall (leaves_value th) ops ->
  gatts (snd (env_replay ops s)) !! th = gatts (snd s) !! th.
Proof.
  intros Hops. revert s.
  induction Hops as [|o ops Ho Hops IH]; intros s; [reflexivity|].
  unfold env_replay, replay in *. cbn [fold_left]. rewrite IH.
  apply env_run_op_gatts. exact Ho.
Qed.

(** X15: a published temperature stays readable: after a publish, any
    sequence of delivered events (connects, disconnects, accepted or
    ignored write events, unknown events) and of central writes to other
    characteristics leaves the four published bytes in the temperature
    storage.  For [BLESensor] this needs the temperature and switch
    handles to differ, since the callback writes the switch storage. *)
Theorem published_value_persists :
  (forall (s : st BleSensor.BLESensor) v (notify : bool) (ops : list sensor_op),
     let th := BleSensor._temperature_handle (fst s) in
     th <> BleSensor._switch_handle (fst s) ->
     Forall (leaves_value th) ops ->
     stored (snd (sensor_replay ops (snd (BleSensor.set_data_temperature v notify s)))) th
       = binary32_le v)
  /\ (forall (s : st Main.BLEenvironment) v (notify indicate : bool) (ops : list env_op),
     let th := Main._temp_handle (fst s) in
     Forall (leaves_value th) ops ->
     stored (snd (env_replay ops (snd (Main.set_temp v notify indicate s)))) th
       = binary32_le v).
Proof.
  split.
  - intros s v notify ops th Hth Hops. unfold stored.
    rewrite sensor_replay_gatts.
    + rewrite set_data_temperature_run. cbn. rewrite lookup_insert_eq. reflexivity.
    + rewrite set_data_temperature_run. exact Hth.
    + exact Hops.
  - intros s v notify indicate ops th Hops. unfold stored.
    rewrite env_replay_gatts by exact Hops.
    rewrite set_temp_run. cbn. rewrite lookup_insert_eq. reflexivity.
Qed.

Lemma published_value_persists_witness :
  stored
    (snd (sensor_replay
            [CentralConnect 7 0 []; CentralWrites 7 2 [x01]; Deliver 20 (Tuple2 7 1);
             CentralDisconnect 7 0 []]
            (snd (BleSensor.set_data_temperature temperature_21_5 true
                    (sensor_state ∅ [])))))
    1
  = binary32_le temperature_21_5.
Proof.
  apply (proj1 published_value_persists (sensor_state ∅ []) temperature_21_5 true
           [CentralConnect 7 0 []; CentralWrites 7 2 [x01]; Deliver 20 (Tuple2 7 1);
            CentralDisconnect 7 0 []]).
  - discriminate.
  - repeat constructor. discriminate.
Defined.
